(** * gpytorch.module: the [Module] shim over the host framework's [nn.Module]

    A shallow embedding of [gpytorch/module.py].  The class adds three things
    to the host module class: a callable interface that checks the types of
    inputs and outputs, attribute hooks that keep a dictionary of named
    parameter groups, and generators that iterate over these groups, those of
    nested child modules included.

    Python objects are modelled as a tree of values; exceptions as an error
    type; generators as the finite sequence of items they yield, together with
    the exception that ends them when there is one. *)

From Stdlib Require Import List String Bool Arith ZArith Lia.
Import ListNotations.
Open Scope string_scope.
Open Scope list_scope.

Set Implicit Arguments.
Set Warnings "-register-all".

(** ** Classes *)

(** The classes that [module.py] tests with [isinstance], and subclasses of
    them.  [nn.Parameter] is the host framework's subclass of [Variable].

    Modelled from the spec: the declarations of [RandomVariable],
    [ParameterGroup] and [LazyVariable] ([gpytorch/random_variables],
    [gpytorch/parameters], [gpytorch/lazy]) are not part of the source at
    hand.  Following the glossary they are three unrelated classes: a random
    variable is a distribution-valued node "as opposed to a deterministic
    tensor", a lazy matrix is a deferred computation "rather than a
    materialized array", a parameter group is a bundle of learnable values. *)
Inductive pyclass : Type :=
| Variable_cls
| Parameter_cls
| RandomVariable_cls
| LazyVariable_cls
| ParameterGroup_cls
| Subclass (name : string) (base : pyclass).

Definition same_root (c d : pyclass) : bool :=
  match c, d with
  | Variable_cls, Variable_cls => true
  | Parameter_cls, Parameter_cls => true
  | RandomVariable_cls, RandomVariable_cls => true
  | LazyVariable_cls, LazyVariable_cls => true
  | ParameterGroup_cls, ParameterGroup_cls => true
  | _, _ => false
  end.

(** [issubclass c d], for [d] one of the five named classes. *)
Fixpoint issubclass (c d : pyclass) : bool :=
  match c with
  | Subclass _ base => issubclass base d
  | Parameter_cls => same_root Parameter_cls d || same_root Variable_cls d
  | _ => same_root c d
  end.

Definition pyclass_name (c : pyclass) : string :=
  match c with
  | Variable_cls => "Variable"
  | Parameter_cls => "Parameter"
  | RandomVariable_cls => "RandomVariable"
  | LazyVariable_cls => "LazyVariable"
  | ParameterGroup_cls => "ParameterGroup"
  | Subclass name _ => name
  end.

(** ** Values *)

(** A Python dictionary with string keys: an association list without
    duplicate keys, in iteration order. *)
Definition pydict (V : Type) := list (string * V).

(** Python values.  [VObj c i] is an instance of class [c] with identity [i]
    (what [id] returns).  A module object carries its identity, its instance
    dictionary [__dict__], and the two registries the host class keeps for it:
    [_parameters], and [_modules], whose entries are a module or [None]. *)
Inductive value : Type :=
| VNone
| VBool (b : bool)
| VInt (n : Z)
| VStr (s : string)
| VList (xs : list value)
| VTuple (xs : list value)
| VDict (kvs : list (string * value))
| VObj (c : pyclass) (i : nat)
| VModule (m : module)
with module : Type :=
| MkModule (gp : bool) (i : nat)
           (dict : list (string * value))
           (parameters : list (string * value))
           (modules : list (string * option module)).

(** [is_gp m]: [m] is an instance of this file's [Module]; otherwise it is a
    plain [nn.Module] of the host framework. *)
Definition is_gp (m : module) : bool := let 'MkModule gp _ _ _ _ := m in gp.
Definition module_id (m : module) : nat := let 'MkModule _ i _ _ _ := m in i.
Definition __dict__ (m : module) : pydict value := let 'MkModule _ _ d _ _ := m in d.
Definition _parameters (m : module) : pydict value := let 'MkModule _ _ _ p _ := m in p.
Definition _modules (m : module) : pydict (option module) :=
  let 'MkModule _ _ _ _ ms := m in ms.

Definition set_dict (m : module) (d : pydict value) : module :=
  let 'MkModule gp i _ p ms := m in MkModule gp i d p ms.
Definition set_parameters (m : module) (p : pydict value) : module :=
  let 'MkModule gp i d _ ms := m in MkModule gp i d p ms.
Definition set_modules (m : module) (ms : pydict (option module)) : module :=
  let 'MkModule gp i d p _ := m in MkModule gp i d p ms.

(** The second argument of the [isinstance] tests of [module.py]:
    [Variable], [RandomVariable], [LazyVariable], [ParameterGroup],
    [nn.Parameter], [nn.Module] and [Module] itself. *)
Inductive classinfo : Type :=
| Variable_ | RandomVariable_ | LazyVariable_ | ParameterGroup_
| nn_Parameter | nn_Module | Module_.

Definition isinstance (v : value) (k : classinfo) : bool :=
  match v, k with
  | VObj c _, Variable_ => issubclass c Variable_cls
  | VObj c _, RandomVariable_ => issubclass c RandomVariable_cls
  | VObj c _, LazyVariable_ => issubclass c LazyVariable_cls
  | VObj c _, ParameterGroup_ => issubclass c ParameterGroup_cls
  | VObj c _, nn_Parameter => issubclass c Parameter_cls
  | VModule _, nn_Module => true
  | VModule m, Module_ => is_gp m
  | _, _ => false
  end.

(** [v.__class__.__name__] *)
Definition class_name (v : value) : string :=
  match v with
  | VNone => "NoneType"
  | VBool _ => "bool"
  | VInt _ => "int"
  | VStr _ => "str"
  | VList _ => "list"
  | VTuple _ => "tuple"
  | VDict _ => "dict"
  | VObj c _ => pyclass_name c
  | VModule _ => "Module"
  end.

(** ** Exceptions and results *)

(** The exceptions met in [module.py].  [RuntimeError] carries its message;
    [RecursionError] is what the interpreter raises at its recursion limit
    (before Python 3.5 it was a plain [RuntimeError]); [UnboundLocalError]
    is what reading a local variable that was never assigned raises. *)
Inductive exn : Type :=
| RuntimeError (msg : string)
| NotImplementedError
| TypeError
| AttributeError
| KeyError
| IndexError
| UnboundLocalError
| RecursionError.

Inductive result (A : Type) : Type :=
| Ok (a : A)
| Raise (e : exn).
Arguments Ok {A} a.
Arguments Raise {A} e.

Definition bind {A B : Type} (r : result A) (k : A -> result B) : result B :=
  match r with
  | Ok a => k a
  | Raise e => Raise e
  end.

Notation "x <- r ;; k" := (bind r (fun x => k))
  (at level 61, r at next level, right associativity).
Notation "r ;;; k" := (bind r (fun _ => k))
  (at level 61, right associativity).

(** ** Dictionaries *)

Fixpoint dict_get {V : Type} (d : pydict V) (k : string) : option V :=
  match d with
  | [] => None
  | (k', v) :: rest => if String.eqb k k' then Some v else dict_get rest k
  end.

(** [d[k] = v]: the value of an existing key is replaced where it stands, a
    new key goes to the end. *)
Fixpoint dict_set {V : Type} (d : pydict V) (k : string) (v : V) : pydict V :=
  match d with
  | [] => [(k, v)]
  | (k', v') :: rest =>
      if String.eqb k k' then (k', v) :: rest else (k', v') :: dict_set rest k v
  end.

Definition dict_mem {V : Type} (d : pydict V) (k : string) : bool :=
  match dict_get d k with Some _ => true | None => false end.

(** ** Generators *)

(** What a generator does when it is run to its end: the items it yields, in
    order, and the exception that ends it, if it does not end by itself.  A
    consumer that stops early sees a prefix of [yielded] and nothing else. *)
Record gen (A : Type) : Type := MkGen { yielded : list A; raised : option exn }.

Definition gen_done {A : Type} : gen A := MkGen [] None.
Definition gen_raise {A : Type} (e : exn) : gen A := MkGen [] (Some e).
Definition gen_yield {A : Type} (a : A) : gen A := MkGen [a] None.

(** One generator body after another: the second runs only if the first
    ends without an exception. *)
Definition gen_seq {A : Type} (g h : gen A) : gen A :=
  match raised g with
  | Some e => g
  | None => MkGen (yielded g ++ yielded h) (raised h)
  end.

(** [for x in g: body x] inside a generator. *)
Fixpoint gen_for_items {A B : Type} (xs : list A) (stop : option exn)
         (body : A -> gen B) : gen B :=
  match xs with
  | [] => MkGen [] stop
  | x :: rest => gen_seq (body x) (gen_for_items rest stop body)
  end.

Definition gen_for {A B : Type} (g : gen A) (body : A -> gen B) : gen B :=
  gen_for_items (yielded g) (raised g) body.

(** [for x in g: if ...: return ...]: the loop of a function that returns from
    its body.  [Ok None] when the loop runs to its end. *)
Fixpoint for_return_items {A R : Type} (xs : list A) (stop : option exn)
         (body : A -> option R) : result (option R) :=
  match xs with
  | [] => match stop with Some e => Raise e | None => Ok None end
  | x :: rest =>
      match body x with
      | Some r => Ok (Some r)
      | None => for_return_items rest stop body
      end
  end.

Definition for_return {A R : Type} (g : gen A) (body : A -> option R)
  : result (option R) :=
  for_return_items (yielded g) (raised g) body.

(** ** The host framework's module class *)

(** The part of [torch.nn.Module] that [gpytorch.module.Module] calls through
    [super] and [self]: attribute storage and child-module iteration.  The
    host keeps parameters and child modules out of the instance dictionary, in
    the registries [_parameters] and [_modules]; other bookkeeping of the host
    (buffers, hooks, backend) plays no part here and is left out. *)
Module nn.

(** [nn.Module.__init__]: empty registries, training mode on. *)
Definition __init__ (self : module) : module * result unit :=
  (MkModule (is_gp self) (module_id self) [("training", VBool true)] [] [],
   Ok tt).

(** [nn.Module.__setattr__]: a parameter goes to [_parameters], a module to
    [_modules]; a name registered there accepts only [None] besides;
    everything else is stored in the instance dictionary. *)
Definition __setattr__ (self : module) (name : string) (value : value)
  : module * result unit :=
  if isinstance value nn_Parameter then
    (set_parameters self (dict_set (_parameters self) name value), Ok tt)
  else if dict_mem (_parameters self) name then
    match value with
    | VNone => (set_parameters self (dict_set (_parameters self) name VNone), Ok tt)
    | _ => (self, Raise TypeError)
    end
  else
    match value with
    | VModule child =>
        (set_modules self (dict_set (_modules self) name (Some child)), Ok tt)
    | _ =>
        if dict_mem (_modules self) name then
          match value with
          | VNone => (set_modules self (dict_set (_modules self) name None), Ok tt)
          | _ => (self, Raise TypeError)
          end
        else (set_dict self (dict_set (__dict__ self) name value), Ok tt)
    end.

(** [nn.Module.__getattr__]: the registries, then [AttributeError]. *)
Definition __getattr__ (self : module) (name : string) : result value :=
  match dict_get (_parameters self) name with
  | Some v => Ok v
  | None =>
      match dict_get (_modules self) name with
      | Some (Some child) => Ok (VModule child)
      | Some None => Ok VNone
      | None => Raise AttributeError
      end
  end.

(** [nn.Module.children]: the registered modules in registration order,
    [None] entries skipped, each object once ([memo] holds the identities
    already seen). *)
Fixpoint children_from (ms : pydict (option module)) (memo : list nat)
  : list module :=
  match ms with
  | [] => []
  | (_, None) :: rest => children_from rest memo
  | (_, Some child) :: rest =>
      if existsb (Nat.eqb (module_id child)) memo
      then children_from rest memo
      else child :: children_from rest (module_id child :: memo)
  end.

Definition children (self : module) : list module :=
  children_from (_modules self) [].

End nn.

(** ** The class [Module] *)

(** Methods that assign to [self] take the module and return it updated,
    together with the outcome; the update stands when the method raises
    after it. *)
Definition method (A : Type) : Type := module -> module * result A.

Definition and_then {A B : Type} (f : method A) (k : A -> method B) : method B :=
  fun self =>
    match f self with
    | (self', Ok a) => k a self'
    | (self', Raise e) => (self', Raise e)
    end.

Notation "f >> g" := (and_then f (fun _ => g))
  (at level 62, right associativity).

(** [self._parameter_groups], read.  The attribute lives in the instance
    dictionary.  Where it is missing the lookup falls to [__getattr__], which
    iterates [named_parameter_groups], which reads the attribute again: the
    interpreter gives up with a recursion error. *)
Definition get_parameter_groups (self : module) : result value :=
  match dict_get (__dict__ self) "_parameter_groups" with
  | Some v => Ok v
  | None => Raise RecursionError
  end.

(** [d.items()] *)
Definition items (d : value) : result (list (string * value)) :=
  match d with
  | VDict kvs => Ok kvs
  | _ => Raise AttributeError
  end.

(** [self._parameter_groups[name] = value] *)
Definition set_parameter_group (name : string) (value : value) : method unit :=
  fun self =>
    match get_parameter_groups self with
    | Raise e => (self, Raise e)
    | Ok (VDict kvs) =>
        (set_dict self (dict_set (__dict__ self) "_parameter_groups"
                                 (VDict (dict_set kvs name value))),
         Ok tt)
    | Ok _ => (self, Raise TypeError)
    end.

Definition __setattr__ (name : string) (value : value) : method unit :=
  fun self =>
    if isinstance value nn_Parameter then
      (self, Raise (RuntimeError
         "Observation Models expect ParameterGroups, not nn.Parameters directly."))
    else if isinstance value ParameterGroup_ then
      (set_parameter_group name value >>
       (fun self => nn.__setattr__ self name value)) self
    else nn.__setattr__ self name value.

Definition __init__ : method unit :=
  nn.__init__ >> __setattr__ "_parameter_groups" (VDict []).

(** The generator [named_parameter_groups].  The loop over [self.children()]
    is written out over the registry, as [nn.children_from] runs it, so that
    the recursion is on a part of [self]; [named_parameter_groups_eq] below
    gives it back in the words of the source. *)
Fixpoint named_parameter_groups (self : module) : gen (string * value) :=
  let 'MkModule gp _ dict _ modules := self in
  if negb gp then gen_raise AttributeError else
  gen_seq
    match dict_get dict "_parameter_groups" with
    | None => gen_raise RecursionError
    | Some d =>
        match items d with
        | Raise e => gen_raise e
        | Ok kvs =>
            gen_for (MkGen kvs None)
                    (fun '(name, param_group) => gen_yield (name, param_group))
        end
    end
    ((fix for_children (ms : pydict (option module)) (memo : list nat)
        : gen (string * value) :=
        match ms with
        | [] => gen_done
        | (_, None) :: rest => for_children rest memo
        | (_, Some child) :: rest =>
            if existsb (Nat.eqb (module_id child)) memo
            then for_children rest memo
            else
              gen_seq
                (if is_gp child then
                   gen_for (named_parameter_groups child)
                           (fun '(name, param_group) => gen_yield (name, param_group))
                 else gen_done)
                (for_children rest (module_id child :: memo))
        end) modules []).

Definition parameter_groups (self : module) : gen value :=
  gen_for (named_parameter_groups self)
          (fun '(name, param_group) => gen_yield param_group).

Definition __getattr__ (self : module) (name : string) : result value :=
  if String.eqb name "__setstate__" then Raise AttributeError
  else
    found <- for_return (named_parameter_groups self)
               (fun '(param_name, value) =>
                  if String.eqb name param_name then Some value else None) ;;
    match found with
    | Some value => Ok value
    | None => nn.__getattr__ self name
    end.

(** The base class leaves [forward] to its subclasses. *)
Definition forward (inputs : list value) (kwargs : pydict value) : result value :=
  Raise NotImplementedError.

(** *** The sequence protocol, as far as [__call__] uses it *)

(** [for output in outputs]: lists and tuples give their elements, a
    dictionary its keys, a string its characters.  [None], numbers and
    booleans are not iterable; modules and the instances that reach this
    point (those of no tensor, random-variable or lazy-matrix class) are
    taken not to be. *)
Definition iter (v : value) : result (list value) :=
  match v with
  | VList xs | VTuple xs => Ok xs
  | VDict kvs => Ok (map (fun kv => VStr (fst kv)) kvs)
  | VStr s => Ok (map (fun c => VStr (String c EmptyString)) (list_ascii_of_string s))
  | _ => Raise TypeError
  end.

Definition len (v : value) : result nat :=
  match v with
  | VList xs | VTuple xs => Ok (List.length xs)
  | VDict kvs => Ok (List.length kvs)
  | VStr s => Ok (String.length s)
  | _ => Raise TypeError
  end.

(** [outputs[0]] *)
Definition getitem0 (v : value) : result value :=
  match v with
  | VList xs | VTuple xs =>
      match xs with x :: _ => Ok x | [] => Raise IndexError end
  | VDict _ => Raise KeyError
  | VStr s =>
      match s with
      | String c _ => Ok (VStr (String c EmptyString))
      | EmptyString => Raise IndexError
      end
  | _ => Raise TypeError
  end.

(** *** [__call__] *)

Definition input_ok (input : value) : bool :=
  isinstance input RandomVariable_ || isinstance input Variable_.

Definition output_ok (output : value) : bool :=
  isinstance output RandomVariable_ || isinstance output Variable_
  || isinstance output LazyVariable_.

Definition input_error (cls : string) : exn :=
  RuntimeError ("Input must be a RandomVariable or Variable, was a " ++ cls).

Definition output_error (cls : string) : exn :=
  RuntimeError
    ("Output must be a RandomVariable, Variable, or LazyVariable. Was a " ++ cls).

(** Lines 17 to 20: the loop over the inputs. *)
Fixpoint check_inputs (inputs : list value) : result unit :=
  match inputs with
  | [] => Ok tt
  | input :: rest =>
      if negb (input_ok input) then Raise (input_error (class_name input))
      else check_inputs rest
  end.

(** The local variable [input] once that loop is over: the last input, and
    nothing when there was no input, for the loop is what assigns it. *)
Definition input_after_loop (inputs : list value) : option value :=
  match rev inputs with
  | input :: _ => Some input
  | [] => None
  end.

(** Lines 29 and 30.  The message is built from [input], not from [output]:
    it names the class of the last input, and building it fails when [input]
    was never assigned. *)
Definition raise_output_error (input : option value) : exn :=
  match input with
  | Some input => output_error (class_name input)
  | None => UnboundLocalError
  end.

(** Lines 25 to 30: the loop over the outputs. *)
Fixpoint check_outputs (input : option value) (outputs : list value)
  : result unit :=
  match outputs with
  | [] => Ok tt
  | output :: rest =>
      if negb (output_ok output) then Raise (raise_output_error input)
      else check_outputs input rest
  end.

(** Lines 22 to 33: what becomes of the value [forward] returned. *)
Definition check_outputs_and_unwrap (inputs : list value) (outputs : value)
  : result value :=
  if isinstance outputs Variable_ || isinstance outputs RandomVariable_
     || isinstance outputs LazyVariable_
  then Ok outputs
  else
    elements <- iter outputs ;;
    check_outputs (input_after_loop inputs) elements ;;;
    n <- len outputs ;;
    if Nat.eqb n 1 then getitem0 outputs else Ok outputs.

Section Call.

(** [self.forward], as the class of [self] defines it. *)
Variable self_forward : list value -> pydict value -> result value.

Definition __call__ (inputs : list value) (kwargs : pydict value) : result value :=
  check_inputs inputs ;;;
  outputs <- self_forward inputs kwargs ;;
  check_outputs_and_unwrap inputs outputs.

End Call.

(** ** Notions the properties are stated with *)

(** A new instance of [Module] with identity [i], after [__init__]. *)
Definition new_Module (i : nat) : module :=
  fst (__init__ (MkModule true i [] [] [])).

(** A run of attribute assignments [self.name = value], each carried out
    whatever became of the one before. *)
Definition assign_all (history : list (string * value)) (self : module) : module :=
  fold_left (fun self '(name, value) => fst (__setattr__ name value self))
            history self.

(** What a run of assignments leaves in [_parameter_groups], starting from
    [kvs]: line 39 is reached by the parameter groups, and by them only. *)
Definition groups_after (history : list (string * value)) (kvs : pydict value)
  : pydict value :=
  fold_left (fun kvs '(name, value) =>
               if negb (isinstance value nn_Parameter)
                  && isinstance value ParameterGroup_
               then dict_set kvs name value else kvs)
            history kvs.

(** The dictionary [_parameter_groups] of a module that has one. *)
Definition own_parameter_groups (self : module) : option (pydict value) :=
  match dict_get (__dict__ self) "_parameter_groups" with
  | Some (VDict kvs) => Some kvs
  | _ => None
  end.

(** [nested self c]: [c] is a child of [self] that is a [Module], or such a
    child of one, and so on. *)
Inductive nested (self : module) : module -> Prop :=
| nested_child child :
    In child (nn.children self) -> isinstance (VModule child) Module_ = true ->
    nested self child
| nested_deeper child c :
    In child (nn.children self) -> isinstance (VModule child) Module_ = true ->
    nested child c ->
    nested self c.

(** [initialised self]: [self] has its dictionary of groups, as [__init__]
    leaves it, and so has every [Module] in the registry of child modules,
    at any depth. *)
Inductive initialised : module -> Prop :=
| initialised_module self kvs :
    own_parameter_groups self = Some kvs ->
    (forall child,
        In (Some child) (map snd (_modules self)) ->
        isinstance (VModule child) Module_ = true ->
        initialised child) ->
    initialised self.

(** A value that may be assigned without breaking [initialised]: anything
    but a [Module] that is not itself initialised. *)
Definition assignable (v : value) : Prop :=
  forall m, v = VModule m -> isinstance v Module_ = true -> initialised m.

(** Lines 58 and 59 in the words of the source. *)
Definition own_items (self : module) : gen (string * value) :=
  match get_parameter_groups self with
  | Raise e => gen_raise e
  | Ok d =>
      match items d with
      | Raise e => gen_raise e
      | Ok kvs =>
          gen_for (MkGen kvs None)
                  (fun '(name, param_group) => gen_yield (name, param_group))
      end
  end.

(** Lines 61 to 64, the loop over the children, in the words of the source. *)
Definition for_children (self : module) : gen (string * value) :=
  gen_for (MkGen (nn.children self) None)
    (fun child =>
       if isinstance (VModule child) Module_ then
         gen_for (named_parameter_groups child)
                 (fun '(name, param_group) => gen_yield (name, param_group))
       else gen_done).

(** [v] is a tensor, a random variable or a lazy matrix. *)
Definition one_of_three (v : value) : Prop :=
  isinstance v Variable_ = true \/ isinstance v RandomVariable_ = true
  \/ isinstance v LazyVariable_ = true.

(** ** Sample objects *)

Definition a_variable : value := VObj Variable_cls 1.
Definition a_random_variable : value :=
  VObj (Subclass "GaussianRandomVariable" RandomVariable_cls) 2.
Definition a_lazy_variable : value :=
  VObj (Subclass "ToeplitzLazyVariable" LazyVariable_cls) 3.
Definition a_parameter : value := VObj Parameter_cls 4.
Definition a_group : value := VObj ParameterGroup_cls 5.
Definition another_group : value :=
  VObj (Subclass "MLEParameterGroup" ParameterGroup_cls) 6.

(** A [Module] with one group, [noise]. *)
Definition likelihood : module :=
  assign_all [("noise", a_group)] (new_Module 10).

(** A plain [nn.Module] that holds a group as an attribute and a [Module]
    as a child. *)
Definition plain_container : module :=
  fst (nn.__setattr__
         (fst (nn.__setattr__ (fst (nn.__init__ (MkModule false 11 [] [] [])))
                              "hidden" another_group))
         "inner" (VModule likelihood)).

(** A [Module] with a group of its own, the child [likelihood] under two
    names, and [plain_container]. *)
Definition model : module :=
  assign_all [("lengthscale", another_group);
              ("likelihood", VModule likelihood);
              ("alias", VModule likelihood);
              ("container", VModule plain_container)]
             (new_Module 12).

(** A [Module] whose child has a group named [__setstate__]. *)
Definition odd_model : module :=
  assign_all [("child",
               VModule (assign_all [("__setstate__", a_group)] (new_Module 20)))]
             (new_Module 21).

(** * Properties *)

(** ** Classes *)

Lemma issubclass_roots (c : pyclass) :
  (issubclass c RandomVariable_cls = true ->
   issubclass c Variable_cls = false /\ issubclass c LazyVariable_cls = false
   /\ issubclass c ParameterGroup_cls = false /\ issubclass c Parameter_cls = false)
  /\ (issubclass c LazyVariable_cls = true ->
      issubclass c Variable_cls = false /\ issubclass c RandomVariable_cls = false
      /\ issubclass c ParameterGroup_cls = false /\ issubclass c Parameter_cls = false)
  /\ (issubclass c ParameterGroup_cls = true ->
      issubclass c Variable_cls = false /\ issubclass c RandomVariable_cls = false
      /\ issubclass c LazyVariable_cls = false /\ issubclass c Parameter_cls = false)
  /\ (issubclass c Parameter_cls = true -> issubclass c Variable_cls = true).
Proof.
  induction c as [ | | | | | name base IH]; simpl;
    try (repeat split; intros; try discriminate; reflexivity).
  exact IH.
Qed.

(** A lazy matrix is neither a tensor nor a random variable. *)
Lemma lazy_variable_not_input_ok (v : value) :
  isinstance v LazyVariable_ = true -> input_ok v = false.
Proof.
  unfold input_ok. destruct v as [ | | | | | | | c i | m]; simpl; try discriminate.
  intros H. destruct (issubclass_roots c) as (_ & Hlazy & _).
  destruct (Hlazy H) as (Hv & Hr & _). now rewrite Hv, Hr.
Qed.

(** A parameter group is not an [nn.Parameter]. *)
Lemma parameter_group_not_parameter (v : value) :
  isinstance v ParameterGroup_ = true -> isinstance v nn_Parameter = false.
Proof.
  destruct v as [ | | | | | | | c i | m]; simpl; try discriminate.
  intros H. destruct (issubclass_roots c) as (_ & _ & Hpg & _).
  now destruct (Hpg H) as (_ & _ & _ & Hp).
Qed.

(** ** Generators *)

(** Yielding every item of a generator of pairs again gives the generator
    back. *)
Lemma gen_for_yield_pairs {A B : Type} (g : gen (A * B)) :
  gen_for g (fun '(a, b) => gen_yield (a, b)) = g.
Proof.
  destruct g as [xs stop]. unfold gen_for; simpl.
  induction xs as [ | [a b] xs IH]; simpl; [reflexivity | ].
  now rewrite IH.
Qed.

Lemma gen_seq_yielded_l {A : Type} (g h : gen A) (a : A) :
  In a (yielded g) -> In a (yielded (gen_seq g h)).
Proof.
  unfold gen_seq. destruct (raised g); simpl; auto using in_or_app.
Qed.

Lemma gen_seq_raised_none {A : Type} (g h : gen A) :
  raised (gen_seq g h) = None -> raised g = None /\ raised h = None.
Proof.
  unfold gen_seq. destruct (raised g) eqn:E; simpl; [congruence | auto].
Qed.

Lemma gen_seq_yielded_r {A : Type} (g h : gen A) (a : A) :
  raised g = None -> In a (yielded h) -> In a (yielded (gen_seq g h)).
Proof.
  unfold gen_seq. intros ->. simpl. auto using in_or_app.
Qed.

Lemma gen_seq_yielded_inv {A : Type} (g h : gen A) (a : A) :
  In a (yielded (gen_seq g h)) -> In a (yielded g) \/ In a (yielded h).
Proof.
  unfold gen_seq. destruct (raised g); simpl; [auto | apply in_app_or].
Qed.

(** ** [named_parameter_groups] in the words of the source *)

Lemma named_parameter_groups_eq (self : module) :
  named_parameter_groups self =
  if negb (isinstance (VModule self) Module_) then gen_raise AttributeError
  else gen_seq (own_items self) (for_children self).
Proof.
  destruct self as [gp i dict ps ms]. simpl. destruct gp; simpl; [ | reflexivity].
  f_equal.
  - unfold own_items, get_parameter_groups. simpl.
    now destruct (dict_get dict "_parameter_groups").
  - unfold for_children, nn.children, gen_for. simpl.
    generalize (@nil nat) as memo.
    induction ms as [ | [name [child | ]] ms IH]; intros memo; simpl.
    + reflexivity.
    + destruct (existsb (Nat.eqb (module_id child)) memo); simpl.
      * apply IH.
      * now rewrite IH.
    + apply IH.
Qed.

Lemma own_items_eq (self : module) (kvs : pydict value) :
  own_parameter_groups self = Some kvs -> own_items self = MkGen kvs None.
Proof.
  unfold own_parameter_groups, own_items, get_parameter_groups.
  destruct (dict_get (__dict__ self) "_parameter_groups") as [[ | | | | | | kvs' | | ] | ];
    try discriminate.
  intros [= ->]. simpl. apply (gen_for_yield_pairs (MkGen kvs None)).
Qed.

(** The pairs of the module's own dictionary are yielded, whatever becomes
    of the loop over the children. *)
Lemma own_groups_yielded (self : module) (kvs : pydict value) (p : string * value) :
  isinstance (VModule self) Module_ = true ->
  own_parameter_groups self = Some kvs ->
  In p kvs -> In p (yielded (named_parameter_groups self)).
Proof.
  intros Hgp Hown Hin. rewrite named_parameter_groups_eq, Hgp. simpl.
  apply gen_seq_yielded_l. now rewrite (own_items_eq _ Hown).
Qed.

Lemma gen_for_items_raised_none {A B : Type} (xs : list A) (body : A -> gen B) :
  raised (gen_for_items xs None body) = None ->
  forall x, In x xs -> raised (body x) = None.
Proof.
  induction xs as [ | y xs IH]; simpl; intros Hnone x Hin; [contradiction | ].
  apply gen_seq_raised_none in Hnone. destruct Hnone as [Hy Hrest].
  destruct Hin as [<- | Hin]; auto.
Qed.

Lemma gen_for_items_yielded {A B : Type} (xs : list A) (body : A -> gen B) (b : B) :
  raised (gen_for_items xs None body) = None ->
  forall x, In x xs -> In b (yielded (body x)) ->
  In b (yielded (gen_for_items xs None body)).
Proof.
  induction xs as [ | y xs IH]; simpl; intros Hnone x Hin Hb; [contradiction | ].
  apply gen_seq_raised_none in Hnone. destruct Hnone as [Hy Hrest].
  destruct Hin as [<- | Hin].
  - now apply gen_seq_yielded_l.
  - apply gen_seq_yielded_r; eauto.
Qed.

Lemma gen_for_items_yielded_inv {A B : Type} (xs : list A) (stop : option exn)
      (body : A -> gen B) (b : B) :
  In b (yielded (gen_for_items xs stop body)) ->
  exists x, In x xs /\ In b (yielded (body x)).
Proof.
  induction xs as [ | y xs IH]; simpl; [contradiction | ].
  intros H. apply gen_seq_yielded_inv in H. destruct H as [H | H].
  - exists y; auto.
  - destruct (IH H) as (x & Hx & Hb). exists x; auto.
Qed.

(** When the iteration of [self] ends without an exception, so does the
    iteration of each child that is a [Module], and what the child yields
    [self] yields. *)
Lemma child_groups_yielded (self child : module) :
  isinstance (VModule self) Module_ = true ->
  raised (named_parameter_groups self) = None ->
  In child (nn.children self) ->
  isinstance (VModule child) Module_ = true ->
  raised (named_parameter_groups child) = None
  /\ incl (yielded (named_parameter_groups child))
          (yielded (named_parameter_groups self)).
Proof.
  intros Hgp Hnone Hin Hchild.
  rewrite (named_parameter_groups_eq self), Hgp in Hnone |- *.
  simpl in Hnone |- *.
  apply gen_seq_raised_none in Hnone. destruct Hnone as [Hown Hloop].
  unfold for_children in Hloop |- *.
  unfold gen_for at 1 in Hloop. unfold gen_for at 1.
  cbn [yielded raised] in Hloop |- *.
  split.
  - pose proof (gen_for_items_raised_none _ _ Hloop child Hin) as H.
    cbv beta in H. rewrite Hchild in H. now rewrite gen_for_yield_pairs in H.
  - intros p Hp. apply gen_seq_yielded_r; [assumption | ].
    apply (gen_for_items_yielded _ _ _ Hloop child Hin).
    cbv beta. rewrite Hchild. now rewrite gen_for_yield_pairs.
Qed.

(** ** Dictionaries *)

Lemma dict_get_set_same {V : Type} (d : pydict V) (k : string) (v : V) :
  dict_get (dict_set d k v) k = Some v.
Proof.
  induction d as [ | [k' v'] d IH]; simpl.
  - now rewrite String.eqb_refl.
  - destruct (String.eqb k k') eqn:E; simpl; rewrite E; [reflexivity | exact IH].
Qed.

Lemma dict_get_set_other {V : Type} (d : pydict V) (k k' : string) (v : V) :
  k' <> k -> dict_get (dict_set d k v) k' = dict_get d k'.
Proof.
  intros Hne. induction d as [ | [k0 v0] d IH]; simpl.
  - apply String.eqb_neq in Hne. now rewrite Hne.
  - destruct (String.eqb k k0) eqn:E; simpl.
    + apply String.eqb_eq in E. subst k0.
      apply String.eqb_neq in Hne. now rewrite Hne.
    + now rewrite IH.
Qed.

Lemma dict_set_in_same {V : Type} (d : pydict V) (k : string) (v : V) :
  In (k, v) (dict_set d k v).
Proof.
  induction d as [ | [k' v'] d IH]; simpl; [now left | ].
  destruct (String.eqb k k') eqn:E; simpl.
  - apply String.eqb_eq in E. subst. now left.
  - now right.
Qed.

Lemma dict_set_in_other {V : Type} (d : pydict V) (k k' : string) (v v' : V) :
  k' <> k -> In (k', v') d -> In (k', v') (dict_set d k v).
Proof.
  intros Hne. induction d as [ | [k0 v0] d IH]; simpl; [contradiction | ].
  intros [H | H].
  - injection H as -> ->. apply String.eqb_neq in Hne.
    rewrite String.eqb_sym, Hne. now left.
  - destruct (String.eqb k k0); simpl; auto.
Qed.

(** The first pair under a key is what [dict_get] finds. *)
Lemma dict_get_in {V : Type} (d : pydict V) (k : string) :
  In k (map fst d) -> exists v, dict_get d k = Some v /\ In (k, v) d.
Proof.
  induction d as [ | [k' v'] d IH]; simpl; [contradiction | ].
  destruct (String.eqb k k') eqn:E.
  - apply String.eqb_eq in E. subst. intros _. exists v'. auto.
  - intros [H | H].
    + subst. now rewrite String.eqb_refl in E.
    + destruct (IH H) as (v & Hv & Hin). exists v. auto.
Qed.

(** ** Attribute assignment *)

Lemma nn_setattr_is_gp (self : module) (name : string) (value : value) :
  is_gp (fst (nn.__setattr__ self name value)) = is_gp self.
Proof.
  destruct self as [gp i d ps ms]. unfold nn.__setattr__.
  destruct (isinstance value nn_Parameter); [reflexivity | ].
  destruct (dict_mem _ name); [now destruct value | ].
  destruct value; try reflexivity; now destruct (dict_mem _ name).
Qed.

(** The host's [__setattr__] touches the instance dictionary at [name]
    only. *)
Lemma nn_setattr_dict_get (self : module) (name k : string) (value : value) :
  k <> name ->
  dict_get (__dict__ (fst (nn.__setattr__ self name value))) k
  = dict_get (__dict__ self) k.
Proof.
  intros Hne. destruct self as [gp i d ps ms]. unfold nn.__setattr__.
  destruct (isinstance value nn_Parameter); [reflexivity | ].
  destruct (dict_mem _ name); [now destruct value | ].
  destruct value; try reflexivity;
    (destruct (dict_mem _ name); [reflexivity | ]);
    simpl; now apply dict_get_set_other.
Qed.

Lemma setattr_is_gp (self : module) (name : string) (value : value) :
  is_gp (fst (__setattr__ name value self)) = is_gp self.
Proof.
  unfold __setattr__.
  destruct (isinstance value nn_Parameter); [reflexivity | ].
  destruct (isinstance value ParameterGroup_); [ | apply nn_setattr_is_gp].
  unfold and_then, set_parameter_group.
  destruct (get_parameter_groups self) as [[ | | | | | | kvs | | ] | e];
    try reflexivity.
  rewrite nn_setattr_is_gp. now destruct self.
Qed.

(** An assignment under a name other than [_parameter_groups] leaves the
    dictionary of groups in place, with the new pair in it when the value is
    a parameter group. *)
Lemma setattr_own_parameter_groups (self : module) (name : string) (v : value)
      (kvs : pydict value) :
  name <> "_parameter_groups" ->
  own_parameter_groups self = Some kvs ->
  own_parameter_groups (fst (__setattr__ name v self))
  = Some (groups_after [(name, v)] kvs).
Proof.
  intros Hne Hown. unfold __setattr__, groups_after. simpl.
  destruct (isinstance v nn_Parameter); simpl; [assumption | ].
  assert (Hhost : forall s, own_parameter_groups s = own_parameter_groups s ->
                            own_parameter_groups (fst (nn.__setattr__ s name v))
                            = own_parameter_groups s).
  { intros s _. unfold own_parameter_groups.
    rewrite nn_setattr_dict_get; [reflexivity | ].
    intros E. now apply Hne. }
  destruct (isinstance v ParameterGroup_).
  - unfold and_then, set_parameter_group, get_parameter_groups.
    unfold own_parameter_groups in Hown.
    destruct (dict_get (__dict__ self) "_parameter_groups")
      as [[ | | | | | | kvs' | | ] | ]; try discriminate.
    injection Hown as ->. rewrite Hhost by reflexivity.
    unfold own_parameter_groups. destruct self as [gp i d ps ms]. simpl.
    now rewrite dict_get_set_same.
  - rewrite Hhost by reflexivity. assumption.
Qed.

Lemma groups_after_app (h1 h2 : list (string * value)) (kvs : pydict value) :
  groups_after (h1 ++ h2) kvs = groups_after h2 (groups_after h1 kvs).
Proof. unfold groups_after. apply fold_left_app. Qed.

Lemma assign_all_is_gp (history : list (string * value)) (self : module) :
  is_gp (assign_all history self) = is_gp self.
Proof.
  revert self. induction history as [ | [name value] history IH]; intros self.
  - reflexivity.
  - change (is_gp (assign_all history (fst (__setattr__ name value self)))
            = is_gp self).
    rewrite IH. apply setattr_is_gp.
Qed.

Lemma assign_all_own_parameter_groups (history : list (string * value))
      (self : module) (kvs : pydict value) :
  Forall (fun nv => fst nv <> "_parameter_groups") history ->
  own_parameter_groups self = Some kvs ->
  own_parameter_groups (assign_all history self) = Some (groups_after history kvs).
Proof.
  intros Hnames. revert self kvs.
  induction Hnames as [ | [name value] history Hname Hnames IH]; intros self kvs Hown.
  - assumption.
  - change (own_parameter_groups
              (assign_all history (fst (__setattr__ name value self)))
            = Some (groups_after history (groups_after [(name, value)] kvs))).
    apply IH. now apply setattr_own_parameter_groups.
Qed.

(** A pair stays in [_parameter_groups] until a parameter group is assigned
    under the same name. *)
Lemma groups_after_keeps (after : list (string * value)) (kvs : pydict value)
      (name : string) (g : value) :
  Forall (fun nv => fst nv <> name \/ isinstance (snd nv) ParameterGroup_ = false)
         after ->
  In (name, g) kvs -> In (name, g) (groups_after after kvs).
Proof.
  intros Hafter. revert kvs.
  induction Hafter as [ | [n v] after Hnv Hafter IH]; intros kvs Hin.
  - assumption.
  - change (In (name, g)
               (groups_after after
                  (if negb (isinstance v nn_Parameter) && isinstance v ParameterGroup_
                   then dict_set kvs n v else kvs))).
    apply IH. simpl in Hnv.
    destruct (negb (isinstance v nn_Parameter) && isinstance v ParameterGroup_) eqn:E;
      [ | assumption].
    apply andb_true_iff in E. destruct E as [_ Epg].
    destruct Hnv as [Hnv | Hnv]; [ | congruence].
    apply dict_set_in_other; [ | assumption]. congruence.
Qed.

Lemma nested_yielded (self c : module) :
  nested self c ->
  isinstance (VModule self) Module_ = true ->
  raised (named_parameter_groups self) = None ->
  isinstance (VModule c) Module_ = true
  /\ raised (named_parameter_groups c) = None
  /\ incl (yielded (named_parameter_groups c))
          (yielded (named_parameter_groups self)).
Proof.
  induction 1 as [self child Hin Hchild | self child c Hin Hchild Hnested IH];
    intros Hgp Hnone;
    destruct (child_groups_yielded self child Hgp Hnone Hin Hchild) as [Hc Hincl].
  - auto.
  - destruct (IH Hchild Hc) as (Hcgp & Hcnone & Hcincl).
    repeat split; try assumption.
    eapply incl_tran; eassumption.
Qed.

(** ** The iteration interface *)

(** C1.  [named_parameter_groups] yields the pairs assigned as attributes of
    the module itself and the pairs its nested child modules yield.  First
    part: on a module with its dictionary of groups in place, after a run of
    assignments in which the group [g] is assigned under [name] and no later
    assignment puts another group under that name, the iteration yields
    [(name, g)]; the name [_parameter_groups], which holds the dictionary
    itself, is not assigned to.  Second part: when the iteration of [self]
    ends without an exception, it yields every pair that the iteration of a
    nested [Module] child, at any depth, yields. *)
Theorem named_parameter_groups_complete :
  (forall (self : module) (kvs : pydict value)
          (before after : list (string * value)) (name : string) (g : value),
      isinstance (VModule self) Module_ = true ->
      own_parameter_groups self = Some kvs ->
      isinstance g ParameterGroup_ = true ->
      Forall (fun nv => fst nv <> "_parameter_groups")
             (before ++ (name, g) :: after) ->
      Forall (fun nv => fst nv <> name
                        \/ isinstance (snd nv) ParameterGroup_ = false) after ->
      In (name, g)
         (yielded (named_parameter_groups
                     (assign_all (before ++ (name, g) :: after) self))))
  /\ (forall self c : module,
         isinstance (VModule self) Module_ = true ->
         raised (named_parameter_groups self) = None ->
         nested self c ->
         incl (yielded (named_parameter_groups c))
              (yielded (named_parameter_groups self))).
Proof.
  split.
  - intros self kvs before after name g Hgp Hown Hg Hnames Hafter.
    pose proof (assign_all_own_parameter_groups _ Hnames Hown) as Hfinal.
    eapply own_groups_yielded; [ | exact Hfinal | ].
    + simpl. now rewrite assign_all_is_gp.
    + rewrite groups_after_app.
      change (groups_after ((name, g) :: after) (groups_after before kvs))
        with (groups_after after
                (groups_after [(name, g)] (groups_after before kvs))).
      apply groups_after_keeps; [assumption | ].
      unfold groups_after at 1. simpl.
      rewrite (parameter_group_not_parameter _ Hg), Hg. simpl.
      apply dict_set_in_same.
  - intros self c Hgp Hnone Hnested.
    now destruct (nested_yielded Hnested Hgp Hnone) as (_ & _ & Hincl).
Qed.

Lemma named_parameter_groups_complete_witness :
  In ("lengthscale", another_group) (yielded (named_parameter_groups model))
  /\ incl (yielded (named_parameter_groups likelihood))
          (yielded (named_parameter_groups model)).
Proof.
  split.
  - apply (proj1 named_parameter_groups_complete (new_Module 12) []
             [] [("likelihood", VModule likelihood); ("alias", VModule likelihood);
                 ("container", VModule plain_container)]
             "lengthscale" another_group).
    + reflexivity.
    + reflexivity.
    + reflexivity.
    + repeat constructor; simpl; discriminate.
    + repeat constructor; simpl; right; reflexivity.
  - apply (proj2 named_parameter_groups_complete model likelihood).
    + reflexivity.
    + reflexivity.
    + apply nested_child; [left; reflexivity | reflexivity].
Defined.

(** C7.  [parameter_groups] yields the second components of the pairs that
    [named_parameter_groups] yields, in the same order and as many times, and
    ends the way that iteration ends. *)
Theorem parameter_groups_eq (self : module) :
  yielded (parameter_groups self) = map snd (yielded (named_parameter_groups self))
  /\ raised (parameter_groups self) = raised (named_parameter_groups self).
Proof.
  unfold parameter_groups, gen_for.
  destruct (named_parameter_groups self) as [xs stop]. simpl.
  induction xs as [ | [name param_group] xs [IHy IHr]]; simpl; [auto | ].
  unfold gen_seq. simpl. rewrite IHy, IHr. auto.
Qed.

Lemma own_items_yielded_inv (self : module) (p : string * value) :
  In p (yielded (own_items self)) ->
  exists kvs, own_parameter_groups self = Some kvs /\ In p kvs.
Proof.
  unfold own_items, own_parameter_groups, get_parameter_groups.
  destruct (dict_get (__dict__ self) "_parameter_groups")
    as [[ | | | | | | kvs | | ] | ]; simpl; try contradiction.
  rewrite (gen_for_yield_pairs (MkGen kvs None)). simpl. eauto.
Qed.

(** Replacing a plain child by another plain object of the same identity
    changes nothing in the loop over the children. *)
Lemma for_children_plain_child (B : Type) (body : module -> gen B)
      (before after : pydict (option module)) (name : string)
      (child child' : module) (memo : list nat) :
  body child = gen_done -> body child' = gen_done ->
  module_id child = module_id child' ->
  gen_for_items (nn.children_from (before ++ (name, Some child) :: after) memo)
                None body
  = gen_for_items (nn.children_from (before ++ (name, Some child') :: after) memo)
                  None body.
Proof.
  intros Hc Hc' Hid. revert memo.
  induction before as [ | [n [c | ]] before IH]; intros memo; simpl.
  - rewrite <- Hid.
    destruct (existsb (Nat.eqb (module_id child)) memo); [reflexivity | ].
    simpl. now rewrite Hc, Hc'.
  - destruct (existsb (Nat.eqb (module_id c)) memo); [apply IH | ].
    simpl. now rewrite IH.
  - apply IH.
Qed.

(** C9.  [named_parameter_groups] goes into the children that are instances
    of [Module], and into no other.  First part: a pair that the iteration
    yields is in the module's own dictionary of groups or is yielded by the
    iteration of a child that is a [Module].  Second part: what a plain
    [nn.Module] child holds (its attributes, its registries, its own children
    at any depth) has no part in the iteration: putting any other plain
    object of the same identity in its place gives the same iteration. *)
Theorem named_parameter_groups_skips_plain_children :
  (forall (self : module) (p : string * value),
      isinstance (VModule self) Module_ = true ->
      In p (yielded (named_parameter_groups self)) ->
      (exists kvs, own_parameter_groups self = Some kvs /\ In p kvs)
      \/ (exists child, In child (nn.children self)
                        /\ isinstance (VModule child) Module_ = true
                        /\ In p (yielded (named_parameter_groups child))))
  /\ (forall (gp : bool) (i : nat) (dict parameters : pydict value)
             (before after : pydict (option module)) (name : string)
             (child child' : module),
         isinstance (VModule child) Module_ = false ->
         isinstance (VModule child') Module_ = false ->
         module_id child = module_id child' ->
         named_parameter_groups
           (MkModule gp i dict parameters (before ++ (name, Some child) :: after))
         = named_parameter_groups
             (MkModule gp i dict parameters (before ++ (name, Some child') :: after))).
Proof.
  split.
  - intros self p Hgp Hin.
    rewrite named_parameter_groups_eq, Hgp in Hin. simpl in Hin.
    apply gen_seq_yielded_inv in Hin. destruct Hin as [Hin | Hin].
    + left. now apply own_items_yielded_inv.
    + right. unfold for_children in Hin. unfold gen_for at 1 in Hin.
      cbn [yielded raised] in Hin.
      apply gen_for_items_yielded_inv in Hin. destruct Hin as (child & Hchild & Hp).
      cbv beta in Hp.
      destruct (isinstance (VModule child) Module_) eqn:E; [ | contradiction].
      rewrite gen_for_yield_pairs in Hp. exists child. auto.
  - intros gp i dict parameters before after name child child' Hc Hc' Hid.
    rewrite !named_parameter_groups_eq.
    change (isinstance (VModule (MkModule gp i dict parameters
                                          (before ++ (name, Some child) :: after)))
                       Module_) with gp.
    change (isinstance (VModule (MkModule gp i dict parameters
                                          (before ++ (name, Some child') :: after)))
                       Module_) with gp.
    destruct gp; simpl; [ | reflexivity].
    f_equal. unfold for_children, nn.children.
    unfold gen_for at 1 3. cbn [yielded raised _modules].
    apply for_children_plain_child; [now rewrite Hc | now rewrite Hc' | assumption].
Qed.

Lemma named_parameter_groups_skips_plain_children_witness :
  ~ In ("hidden", another_group) (yielded (named_parameter_groups model))
  /\ ~ In ("noise", a_group)
          (yielded (named_parameter_groups
                      (assign_all [("container", VModule plain_container)]
                                  (new_Module 12)))).
Proof.
  split.
  - intros Hin.
    destruct (proj1 named_parameter_groups_skips_plain_children model
                    ("hidden", another_group) eq_refl Hin)
      as [(kvs & Hown & Hkvs) | (child & Hchild & Hgp & Hp)].
    + injection Hown as <-. simpl in Hkvs.
      destruct Hkvs as [H | []]. discriminate.
    + simpl in Hchild. destruct Hchild as [<- | [<- | []]].
      * simpl in Hp. destruct Hp as [H | []]. discriminate.
      * discriminate.
  - change (assign_all [("container", VModule plain_container)] (new_Module 12))
      with (MkModule true 12 (__dict__ (new_Module 12)) []
                     ([] ++ [("container", Some plain_container)])).
    rewrite (proj2 named_parameter_groups_skips_plain_children true 12
               (__dict__ (new_Module 12)) [] [] [] "container"
               plain_container (MkModule false 11 [] [] [])
               eq_refl eq_refl eq_refl).
    simpl. intros [].
Defined.

(** ** Attribute lookup *)

Lemma for_return_first (xs : pydict value) (stop : option exn)
      (name : string) (g : value) :
  dict_get xs name = Some g ->
  for_return_items xs stop
    (fun '(param_name, value) =>
       if String.eqb name param_name then Some value else None)
  = Ok (Some g).
Proof.
  induction xs as [ | [k v] xs IH]; simpl; [discriminate | ].
  destruct (String.eqb name k); [now intros [= ->] | exact IH].
Qed.

(** C10, amended.  For every name other than [__setstate__] that
    [named_parameter_groups] yields, [__getattr__] (which the interpreter
    calls for a name that is not an ordinary attribute) returns the first
    parameter group yielded under that name, a group of a nested child
    included. *)
Theorem getattr_returns_first_group (self : module) (name : string) :
  name <> "__setstate__" ->
  In name (map fst (yielded (named_parameter_groups self))) ->
  exists g, dict_get (yielded (named_parameter_groups self)) name = Some g
            /\ In (name, g) (yielded (named_parameter_groups self))
            /\ __getattr__ self name = Ok g.
Proof.
  intros Hne Hin. destruct (dict_get_in _ _ Hin) as (g & Hget & Hing).
  exists g. repeat split; try assumption.
  unfold __getattr__. apply String.eqb_neq in Hne. rewrite Hne.
  unfold for_return. now rewrite (for_return_first _ _ _ Hget).
Qed.

Lemma getattr_returns_first_group_witness :
  exists g, dict_get (yielded (named_parameter_groups model)) "noise" = Some g
            /\ In ("noise", g) (yielded (named_parameter_groups model))
            /\ __getattr__ model "noise" = Ok g.
Proof.
  apply (getattr_returns_first_group model (name := "noise")).
  - discriminate.
  - simpl. right. left. reflexivity.
Defined.

(** C10 as stated fails at the name [__setstate__]: the iteration of
    [odd_model] yields a group under that name, the name is not in the
    instance dictionary, and [__getattr__] raises [AttributeError]. *)
Lemma getattr_setstate_counterexample :
  In ("__setstate__", a_group) (yielded (named_parameter_groups odd_model))
  /\ dict_get (__dict__ odd_model) "__setstate__" = None
  /\ __getattr__ odd_model "__setstate__" = Raise AttributeError
  /\ ~ (exists g, __getattr__ odd_model "__setstate__" = Ok g).
Proof.
  repeat split.
  - simpl. left. reflexivity.
  - intros [g Hg]. discriminate.
Qed.

(** ** The callable interface *)

Lemma check_inputs_ok (inputs : list value) :
  Forall (fun input => input_ok input = true) inputs <-> check_inputs inputs = Ok tt.
Proof.
  induction inputs as [ | input inputs IH]; simpl.
  - split; auto.
  - destruct (input_ok input) eqn:E; simpl.
    + rewrite <- IH. split; [now inversion 1 | auto].
    + split; [inversion 1; congruence | discriminate].
Qed.

Lemma check_inputs_raise (inputs : list value) :
  Exists (fun input => input_ok input = false) inputs
  <-> exists cls, check_inputs inputs = Raise (input_error cls).
Proof.
  induction inputs as [ | input inputs IH]; simpl.
  - split; [inversion 1 | intros [cls H]; discriminate].
  - destruct (input_ok input) eqn:E; simpl.
    + rewrite <- IH. split; [inversion 1; [congruence | assumption] | auto].
    + split; [eauto | auto].
Qed.

Lemma check_outputs_ok (input : option value) (outputs : list value) :
  Forall (fun output => output_ok output = true) outputs ->
  check_outputs input outputs = Ok tt.
Proof.
  induction 1 as [ | output outputs Hok _ IH]; simpl; [reflexivity | ].
  now rewrite Hok.
Qed.

Lemma check_outputs_raise (input : option value) (outputs : list value) :
  ~ Forall (fun output => output_ok output = true) outputs ->
  check_outputs input outputs = Raise (raise_output_error input).
Proof.
  induction outputs as [ | output outputs IH]; simpl; intros Hnot.
  - destruct Hnot. constructor.
  - destruct (output_ok output) eqn:E; simpl; [ | reflexivity].
    apply IH. intros H. apply Hnot. now constructor.
Qed.

(** The test of line 22 and [output_ok] ask the same. *)
Lemma output_ok_line_22 (v : value) :
  isinstance v Variable_ || isinstance v RandomVariable_ || isinstance v LazyVariable_
  = output_ok v.
Proof.
  unfold output_ok.
  now destruct (isinstance v Variable_), (isinstance v RandomVariable_).
Qed.

Lemma one_of_three_output_ok (v : value) : one_of_three v <-> output_ok v = true.
Proof.
  unfold one_of_three, output_ok.
  destruct (isinstance v Variable_), (isinstance v RandomVariable_),
    (isinstance v LazyVariable_); simpl; intuition congruence.
Qed.

Lemma len_iter (v : value) (elements : list value) :
  iter v = Ok elements -> len v = Ok (List.length elements).
Proof.
  destruct v; simpl; try discriminate; intros [= <-]; try reflexivity.
  - rewrite length_map. f_equal.
    induction s as [ | c s IH]; simpl; [reflexivity | now rewrite IH].
  - now rewrite length_map.
Qed.

Lemma getitem0_iter (v x : value) :
  iter v = Ok [x] -> output_ok x = true -> getitem0 v = Ok x.
Proof.
  destruct v; simpl; try discriminate.
  - destruct s as [ | c [ | c' s]]; simpl; try discriminate. now intros [= <-].
  - now intros [= ->].
  - now intros [= ->].
  - destruct kvs as [ | [k v] [ | kv kvs]]; simpl; try discriminate.
    intros [= <-]. discriminate.
Qed.

(** What [__call__] does once the inputs are through. *)
Lemma call_after_input_check
      (self_forward : list value -> pydict value -> result value)
      (inputs : list value) (kwargs : pydict value) :
  check_inputs inputs = Ok tt ->
  __call__ self_forward inputs kwargs
  = (outputs <- self_forward inputs kwargs ;; check_outputs_and_unwrap inputs outputs).
Proof. unfold __call__. now intros ->. Qed.

(** C2, amended.  The call raises the usage error of the input check if and
    only if some positional input is neither a random variable nor a tensor,
    whatever [forward] is; when every input is one of the two, the input
    check raises nothing and the call is [forward] on the inputs, followed by
    the check of what it returned (which can raise a [RuntimeError] of its
    own). *)
Theorem call_input_validation
        (self_forward : list value -> pydict value -> result value)
        (inputs : list value) (kwargs : pydict value) :
  ((exists cls, check_inputs inputs = Raise (input_error cls))
   <-> Exists (fun input => input_ok input = false) inputs)
  /\ (Exists (fun input => input_ok input = false) inputs ->
      exists cls, __call__ self_forward inputs kwargs = Raise (input_error cls))
  /\ (Forall (fun input => input_ok input = true) inputs ->
      check_inputs inputs = Ok tt
      /\ __call__ self_forward inputs kwargs
         = (outputs <- self_forward inputs kwargs ;;
            check_outputs_and_unwrap inputs outputs)).
Proof.
  split; [symmetry; apply check_inputs_raise | split].
  - intros H. apply check_inputs_raise in H. destruct H as [cls H].
    exists cls. unfold __call__. now rewrite H.
  - intros H. apply check_inputs_ok in H. split; [assumption | ].
    now apply call_after_input_check.
Qed.

Lemma call_input_validation_witness :
  (exists cls,
      __call__ forward [a_variable; a_group] [] = Raise (input_error cls))
  /\ __call__ (fun inputs _ => Ok (VTuple inputs)) [a_variable; a_random_variable] []
     = Ok (VTuple [a_variable; a_random_variable]).
Proof.
  split.
  - apply (proj1 (proj2 (call_input_validation forward [a_variable; a_group] []))).
    right. left. reflexivity.
  - destruct (call_input_validation (fun inputs _ => Ok (VTuple inputs))
                                    [a_variable; a_random_variable] [])
      as (_ & _ & Hgood).
    destruct Hgood as [_ Hcall]; [repeat constructor | ].
    rewrite Hcall. reflexivity.
Defined.

(** C2 as stated fails: with a tensor as the only input and a [forward] that
    returns a list holding [None], the call raises a [RuntimeError] (the one
    of the output check), and no input is at fault. *)
Lemma call_runtime_error_with_good_inputs :
  __call__ (fun _ _ => Ok (VList [VNone])) [a_variable] []
  = Raise (output_error "Variable")
  /\ ~ ((exists msg, __call__ (fun _ _ => Ok (VList [VNone])) [a_variable] []
                     = Raise (RuntimeError msg))
        <-> Exists (fun input => input_ok input = false) [a_variable]).
Proof.
  split; [reflexivity | ].
  intros [Himp _].
  assert (H : Exists (fun input => input_ok input = false) [a_variable]).
  { apply Himp. eexists. reflexivity. }
  inversion H as [x l Hx | x l Hx]; [discriminate | inversion Hx].
Qed.

(** What the call does with a bad result.  When the inputs pass the input
    check and [forward] returns a value that is not a tensor, a random
    variable or a lazy matrix, nor a collection of such values, the call
    fails.  When the value can be iterated over and there is an input, it
    fails with the usage error ([RuntimeError]) of the output check; when
    there is no input, with the [UnboundLocalError] of line 30; when the
    value cannot be iterated over, with the [TypeError] of line 25. *)
Theorem call_rejects_bad_outputs
        (self_forward : list value -> pydict value -> result value)
        (inputs : list value) (kwargs : pydict value) (outputs : value) :
  Forall (fun input => input_ok input = true) inputs ->
  self_forward inputs kwargs = Ok outputs ->
  ~ one_of_three outputs ->
  ~ (exists elements, iter outputs = Ok elements
                      /\ Forall one_of_three elements) ->
  match iter outputs with
  | Ok _ =>
      __call__ self_forward inputs kwargs
      = Raise (raise_output_error (input_after_loop inputs))
  | Raise e =>
      e = TypeError /\ __call__ self_forward inputs kwargs = Raise TypeError
  end.
Proof.
  intros Hin Hfwd Hsingle Hcoll.
  apply check_inputs_ok in Hin.
  rewrite call_after_input_check by assumption. rewrite Hfwd.
  simpl. unfold check_outputs_and_unwrap. rewrite output_ok_line_22.
  rewrite one_of_three_output_ok in Hsingle.
  destruct (output_ok outputs); [now destruct Hsingle | ].
  destruct (iter outputs) as [elements | e] eqn:E; simpl.
  - rewrite check_outputs_raise; [reflexivity | ].
    intros Hall. apply Hcoll. exists elements. split; [reflexivity | ].
    eapply Forall_impl; [ | exact Hall].
    intros o Ho. now apply one_of_three_output_ok.
  - assert (He : e = TypeError) by (destruct outputs; simpl in E; congruence).
    subst e. auto.
Qed.

Lemma call_rejects_bad_outputs_witness :
  __call__ (fun _ _ => Ok (VTuple [a_variable; a_parameter; a_group])) [a_variable] []
  = Raise (output_error "Variable")
  /\ __call__ (fun _ _ => Ok (VInt 0)) [a_variable] [] = Raise TypeError.
Proof.
  split.
  - apply (@call_rejects_bad_outputs
             (fun _ _ => Ok (VTuple [a_variable; a_parameter; a_group]))
             [a_variable] [] (VTuple [a_variable; a_parameter; a_group])).
    + repeat constructor.
    + reflexivity.
    + intros [H | [H | H]]; discriminate.
    + intros (elements & Hiter & Hall). injection Hiter as <-.
      inversion Hall as [ | x1 l1 _ Hrest]. inversion Hrest as [ | x2 l2 _ Hrest'].
      inversion Hrest' as [ | x3 l3 Hgroup _].
      destruct Hgroup as [Hg | [Hg | Hg]]; discriminate.
  - apply (@call_rejects_bad_outputs (fun _ _ => Ok (VInt 0))
             [a_variable] [] (VInt 0)).
    + repeat constructor.
    + reflexivity.
    + intros [H | [H | H]]; discriminate.
    + intros (elements & Hiter & _). discriminate.
Defined.

(** C3.  The usage error ([RuntimeError]) is due whenever [forward] returns
    a value that is neither one of the three types nor a collection of them,
    as the message of line 29 says.  The code misses it twice.  A value that cannot be
    iterated over: with a tensor as input and a [forward] that returns
    [None], the loop of line 25 raises [TypeError] before the output check is
    reached.  A call without positional inputs: with a [forward] that returns
    a list holding [None], the output check finds the bad element, and line
    30, which reads [input] where [output] is meant, raises
    [UnboundLocalError].  No [RuntimeError] is raised in either case. *)
Lemma call_misses_usage_error :
  (Forall (fun input => input_ok input = true) [a_variable]
   /\ ~ one_of_three VNone
   /\ iter VNone = Raise TypeError
   /\ __call__ (fun _ _ => Ok VNone) [a_variable] [] = Raise TypeError
   /\ ~ (exists msg, __call__ (fun _ _ => Ok VNone) [a_variable] []
                     = Raise (RuntimeError msg)))
  /\ (check_inputs [] = Ok tt
      /\ ~ one_of_three (VList [VNone])
      /\ ~ Forall one_of_three [VNone]
      /\ __call__ (fun _ _ => Ok (VList [VNone])) [] [] = Raise UnboundLocalError
      /\ ~ (exists msg, __call__ (fun _ _ => Ok (VList [VNone])) [] []
                        = Raise (RuntimeError msg))).
Proof.
  split.
  - split; [repeat constructor | ].
    split; [intros [H | [H | H]]; discriminate | ].
    split; [reflexivity | ].
    split; [reflexivity | ].
    intros [msg H]. discriminate.
  - split; [reflexivity | ].
    split; [intros [H | [H | H]]; discriminate | ].
    split; [intros H; inversion H as [ | x l [Hx | [Hx | Hx]] _]; discriminate | ].
    split; [reflexivity | ].
    intros [msg H]. discriminate.
Qed.

(** C5, amended.  The input check knows two variants, the random variable
    and the tensor: a call whose inputs are each one of the two passes it,
    and a call with a lazy matrix among its inputs raises the usage error,
    whatever [forward] is. *)
Theorem input_validation_variants
        (self_forward : list value -> pydict value -> result value)
        (inputs : list value) (kwargs : pydict value) :
  (Forall (fun input => isinstance input RandomVariable_ = true
                        \/ isinstance input Variable_ = true) inputs ->
   check_inputs inputs = Ok tt)
  /\ (Exists (fun input => isinstance input LazyVariable_ = true) inputs ->
      exists cls, __call__ self_forward inputs kwargs = Raise (input_error cls)).
Proof.
  split; intros H.
  - apply check_inputs_ok. eapply Forall_impl; [ | exact H].
    intros input [Hi | Hi]; unfold input_ok; rewrite Hi;
      [reflexivity | apply orb_true_r].
  - apply (call_input_validation self_forward inputs kwargs).
    eapply Exists_impl; [ | exact H].
    intros input. apply lazy_variable_not_input_ok.
Qed.

Lemma input_validation_variants_witness :
  check_inputs [a_random_variable; a_variable; a_parameter] = Ok tt
  /\ exists cls,
      __call__ forward [a_variable; a_lazy_variable] [] = Raise (input_error cls).
Proof.
  split.
  - apply (proj1 (input_validation_variants forward
                    [a_random_variable; a_variable; a_parameter] [])).
    constructor; [left; reflexivity | ].
    constructor; [right; reflexivity | ].
    constructor; [right; reflexivity | constructor].
  - apply (proj2 (input_validation_variants forward
                    [a_variable; a_lazy_variable] [])).
    right. left. reflexivity.
Defined.

(** C5 as stated fails: a lazy matrix is one of the three variants, and a
    call with it as input raises the usage error of the input check. *)
Lemma call_rejects_lazy_input :
  Forall one_of_three [a_lazy_variable]
  /\ check_inputs [a_lazy_variable] = Raise (input_error "ToeplitzLazyVariable")
  /\ __call__ (fun inputs _ => Ok (VList inputs)) [a_lazy_variable] []
     = Raise (RuntimeError
                "Input must be a RandomVariable or Variable, was a ToeplitzLazyVariable").
Proof.
  split; [ | split; reflexivity].
  constructor; [ | constructor]. right. right. reflexivity.
Qed.

(** C6.  When every input is a tensor or a random variable and [forward]
    returns a single tensor, random variable or lazy matrix, the call returns
    that value as it is. *)
Theorem call_returns_single_output
        (self_forward : list value -> pydict value -> result value)
        (inputs : list value) (kwargs : pydict value) (outputs : value) :
  Forall (fun input => isinstance input Variable_ = true
                       \/ isinstance input RandomVariable_ = true) inputs ->
  self_forward inputs kwargs = Ok outputs ->
  one_of_three outputs ->
  __call__ self_forward inputs kwargs = Ok outputs.
Proof.
  intros Hin Hfwd Hout.
  rewrite call_after_input_check, Hfwd.
  - simpl. unfold check_outputs_and_unwrap. rewrite output_ok_line_22.
    apply one_of_three_output_ok in Hout. now rewrite Hout.
  - apply check_inputs_ok. eapply Forall_impl; [ | exact Hin].
    intros input [Hi | Hi]; unfold input_ok; rewrite Hi;
      [apply orb_true_r | reflexivity].
Qed.

Lemma call_returns_single_output_witness :
  __call__ (fun _ _ => Ok a_lazy_variable) [a_variable; a_random_variable] []
  = Ok a_lazy_variable.
Proof.
  apply call_returns_single_output.
  - constructor; [left; reflexivity | ].
    constructor; [right; reflexivity | constructor].
  - reflexivity.
  - right. right. reflexivity.
Defined.

(** C8, amended.  When the inputs pass the input check and [forward] returns
    a collection, itself none of the three types, whose elements are all
    tensors, random variables or lazy matrices: a collection of exactly one
    element gives that element, and a collection of any other length is
    returned as it is. *)
Theorem call_unwraps_singleton
        (self_forward : list value -> pydict value -> result value)
        (inputs : list value) (kwargs : pydict value)
        (outputs : value) (elements : list value) :
  Forall (fun input => input_ok input = true) inputs ->
  self_forward inputs kwargs = Ok outputs ->
  ~ one_of_three outputs ->
  iter outputs = Ok elements ->
  Forall one_of_three elements ->
  (forall x, elements = [x] -> __call__ self_forward inputs kwargs = Ok x)
  /\ (List.length elements <> 1 -> __call__ self_forward inputs kwargs = Ok outputs).
Proof.
  intros Hin Hfwd Hsingle Hiter Hall.
  apply check_inputs_ok in Hin.
  rewrite call_after_input_check by assumption. rewrite Hfwd. simpl.
  unfold check_outputs_and_unwrap. rewrite output_ok_line_22.
  rewrite one_of_three_output_ok in Hsingle.
  destruct (output_ok outputs); [now destruct Hsingle | ].
  assert (Hok : Forall (fun o => output_ok o = true) elements).
  { eapply Forall_impl; [ | exact Hall]. intros o. apply one_of_three_output_ok. }
  rewrite Hiter. simpl. rewrite (check_outputs_ok _ Hok). simpl.
  rewrite (len_iter _ Hiter). simpl. split.
  - intros x ->. simpl. apply getitem0_iter; [assumption | ].
    now inversion Hok.
  - intros Hlen. apply Nat.eqb_neq in Hlen. now rewrite Hlen.
Qed.

Lemma call_unwraps_singleton_witness :
  __call__ (fun _ _ => Ok (VList [a_lazy_variable])) [a_variable] []
  = Ok a_lazy_variable
  /\ __call__ (fun inputs _ => Ok (VTuple inputs)) [a_variable; a_random_variable] []
     = Ok (VTuple [a_variable; a_random_variable])
  /\ __call__ (fun _ _ => Ok (VList [])) [] [] = Ok (VList []).
Proof.
  split; [ | split].
  - apply (proj1 (@call_unwraps_singleton
                    (fun _ _ => Ok (VList [a_lazy_variable])) [a_variable] []
                    (VList [a_lazy_variable]) [a_lazy_variable]
                    ltac:(repeat constructor) eq_refl
                    ltac:(intros [H | [H | H]]; discriminate) eq_refl
                    ltac:(constructor; [right; right; reflexivity | constructor]))).
    reflexivity.
  - apply (proj2 (@call_unwraps_singleton
                    (fun inputs _ => Ok (VTuple inputs))
                    [a_variable; a_random_variable] []
                    (VTuple [a_variable; a_random_variable])
                    [a_variable; a_random_variable]
                    ltac:(repeat constructor) eq_refl
                    ltac:(intros [H | [H | H]]; discriminate) eq_refl
                    ltac:(constructor; [left; reflexivity | ];
                          constructor; [right; left; reflexivity | constructor]))).
    simpl. discriminate.
  - apply (proj2 (@call_unwraps_singleton
                    (fun _ _ => Ok (VList [])) [] [] (VList []) []
                    ltac:(constructor) eq_refl
                    ltac:(intros [H | [H | H]]; discriminate) eq_refl
                    ltac:(constructor))).
    simpl. discriminate.
Defined.

(** C8 as stated fails in its second half: a list of length two with [None]
    in it is not returned as the collection, the call raises the usage error
    of the output check. *)
Lemma call_raises_on_longer_collection :
  Forall (fun input => input_ok input = true) [a_variable]
  /\ List.length [a_variable; VNone] <> 1
  /\ __call__ (fun _ _ => Ok (VList [a_variable; VNone])) [a_variable] []
     = Raise (output_error "Variable")
  /\ __call__ (fun _ _ => Ok (VList [a_variable; VNone])) [a_variable] []
     <> Ok (VList [a_variable; VNone]).
Proof.
  split; [repeat constructor | ].
  split; [simpl; discriminate | ].
  split; [reflexivity | discriminate].
Qed.

(** ** The guard on attribute assignment *)

Lemma nn_setattr_no_runtime_error (self : module) (name msg : string) (v : value) :
  snd (nn.__setattr__ self name v) <> Raise (RuntimeError msg).
Proof.
  unfold nn.__setattr__.
  destruct (isinstance v nn_Parameter); [discriminate | ].
  destruct (dict_mem (_parameters self) name); [destruct v; discriminate | ].
  destruct v; try discriminate;
    destruct (dict_mem (_modules self) name); discriminate.
Qed.

(** C4.  Assigning an [nn.Parameter] as an attribute raises the usage error
    ([RuntimeError]), under every name and on every module, and leaves the
    module as it was.  Assigning a parameter group to a module that has its
    dictionary of groups never raises it: the group is recorded and the
    assignment handed to the host class, where it goes through unless the
    name is one the host keeps for a parameter or a child module. *)
Theorem setattr_parameter_guard :
  (forall (self : module) (name : string) (p : value),
      isinstance p nn_Parameter = true ->
      __setattr__ name p self
      = (self, Raise (RuntimeError
           "Observation Models expect ParameterGroups, not nn.Parameters directly.")))
  /\ (forall (self : module) (name : string) (g : value) (kvs : pydict value),
         isinstance g ParameterGroup_ = true ->
         own_parameter_groups self = Some kvs ->
         (forall msg, snd (__setattr__ name g self) <> Raise (RuntimeError msg))
         /\ (dict_mem (_parameters self) name = false ->
             dict_mem (_modules self) name = false ->
             snd (__setattr__ name g self) = Ok tt)).
Proof.
  split.
  - intros self name p Hp. unfold __setattr__. now rewrite Hp.
  - intros self name g kvs Hg Hown.
    pose proof (parameter_group_not_parameter _ Hg) as Hnp.
    unfold __setattr__. rewrite Hnp, Hg.
    unfold and_then, set_parameter_group, get_parameter_groups.
    unfold own_parameter_groups in Hown.
    destruct (dict_get (__dict__ self) "_parameter_groups")
      as [[ | | | | | | kvs' | | ] | ]; try discriminate.
    split.
    + intros msg. apply nn_setattr_no_runtime_error.
    + intros Hps Hms.
      destruct self as [gp i d ps ms]. simpl in Hps, Hms |- *.
      unfold nn.__setattr__. simpl. rewrite Hnp, Hps.
      destruct g; try discriminate. now rewrite Hms.
Qed.

Lemma setattr_parameter_guard_witness :
  snd (__setattr__ "weight" a_parameter model)
  = Raise (RuntimeError
             "Observation Models expect ParameterGroups, not nn.Parameters directly.")
  /\ snd (__setattr__ "weight" a_group model) = Ok tt
  /\ In ("weight", a_group)
        (yielded (named_parameter_groups (fst (__setattr__ "weight" a_group model)))).
Proof.
  split; [ | split].
  - rewrite (proj1 setattr_parameter_guard model "weight" a_parameter eq_refl).
    reflexivity.
  - destruct (proj2 setattr_parameter_guard model "weight" a_group _
                    eq_refl eq_refl)
      as [_ Hok].
    apply (Hok eq_refl eq_refl).
  - simpl. right. left. reflexivity.
Defined.

(** ** Modules built by [__init__] and assignments *)

Lemma children_from_in (ms : pydict (option module)) (memo : list nat) (c : module) :
  In c (nn.children_from ms memo) -> In (Some c) (map snd ms).
Proof.
  revert memo. induction ms as [ | [n [child | ]] ms IH]; intros memo; simpl.
  - contradiction.
  - destruct (existsb (Nat.eqb (module_id child)) memo); simpl.
    + eauto.
    + intros [-> | H]; eauto.
  - eauto.
Qed.

Lemma gen_for_items_completes {A B : Type} (xs : list A) (body : A -> gen B) :
  (forall x, In x xs -> raised (body x) = None) ->
  raised (gen_for_items xs None body) = None.
Proof.
  induction xs as [ | x xs IH]; simpl; intros Hbody; [reflexivity | ].
  unfold gen_seq. rewrite (Hbody x) by now left. simpl. apply IH. auto.
Qed.

(** The iteration of an initialised [Module] ends without an exception. *)
Lemma initialised_iteration_completes (self : module) :
  initialised self ->
  isinstance (VModule self) Module_ = true ->
  raised (named_parameter_groups self) = None.
Proof.
  induction 1 as [self kvs Hown _ IH]. intros Hgp.
  rewrite named_parameter_groups_eq, Hgp. simpl.
  unfold gen_seq. rewrite (own_items_eq _ Hown). simpl.
  unfold for_children. unfold gen_for at 1. cbn [yielded raised].
  apply gen_for_items_completes. intros child Hchild. cbv beta.
  destruct (isinstance (VModule child) Module_) eqn:E; [ | reflexivity].
  rewrite gen_for_yield_pairs. apply IH; [ | assumption | assumption].
  eapply children_from_in. exact Hchild.
Qed.

Lemma dict_set_values {V : Type} (d : pydict V) (k : string) (v w : V) :
  In w (map snd (dict_set d k v)) -> w = v \/ In w (map snd d).
Proof.
  induction d as [ | [k' v'] d IH]; simpl.
  - intros [<- | []]. now left.
  - destruct (String.eqb k k'); simpl.
    + intros [<- | H]; auto.
    + intros [<- | H]; auto. destruct (IH H); auto.
Qed.

Lemma nn_setattr_modules (self : module) (name : string) (v : value) (c : module) :
  In (Some c) (map snd (_modules (fst (nn.__setattr__ self name v)))) ->
  v = VModule c \/ In (Some c) (map snd (_modules self)).
Proof.
  destruct self as [gp i d ps ms]. unfold nn.__setattr__.
  destruct (isinstance v nn_Parameter); [auto | ].
  destruct (dict_mem _ name); [destruct v; auto | ].
  destruct v; try (destruct (dict_mem _ name); simpl; auto; fail).
  - destruct (dict_mem _ name); simpl; auto.
    intros H. apply dict_set_values in H. destruct H; [discriminate | auto].
  - simpl. intros H. apply dict_set_values in H.
    destruct H as [[= ->] | H]; auto.
Qed.

Lemma setattr_modules (self : module) (name : string) (v : value) (c : module) :
  In (Some c) (map snd (_modules (fst (__setattr__ name v self)))) ->
  v = VModule c \/ In (Some c) (map snd (_modules self)).
Proof.
  unfold __setattr__.
  destruct (isinstance v nn_Parameter); [auto | ].
  destruct (isinstance v ParameterGroup_); [ | apply nn_setattr_modules].
  unfold and_then, set_parameter_group.
  destruct (get_parameter_groups self) as [[ | | | | | | kvs | | ] | e]; auto.
  intros H. apply nn_setattr_modules in H. now destruct self.
Qed.

(** Assignments keep a module initialised, as long as the name
    [_parameter_groups] is left alone and no uninitialised [Module] is
    assigned. *)
Lemma setattr_initialised (self : module) (name : string) (v : value) :
  name <> "_parameter_groups" -> assignable v ->
  initialised self -> initialised (fst (__setattr__ name v self)).
Proof.
  intros Hname Hv Hself. destruct Hself as [self kvs Hown Hchildren].
  econstructor.
  - apply setattr_own_parameter_groups; eassumption.
  - intros child Hin Hgp. apply setattr_modules in Hin.
    destruct Hin as [-> | Hin]; [now apply Hv | now apply Hchildren].
Qed.

Lemma new_Module_initialised (i : nat) : initialised (new_Module i).
Proof.
  apply initialised_module with (kvs := []); [reflexivity | ].
  intros child [].
Qed.

Lemma assign_all_initialised (history : list (string * value)) (self : module) :
  Forall (fun nv => fst nv <> "_parameter_groups" /\ assignable (snd nv)) history ->
  initialised self -> initialised (assign_all history self).
Proof.
  intros Hhistory. revert self.
  induction Hhistory as [ | [name v] history [Hname Hv] _ IH]; intros self Hself.
  - assumption.
  - change (initialised (assign_all history (fst (__setattr__ name v self)))).
    apply IH. now apply setattr_initialised.
Qed.


(** * Further properties of the callable interface *)

Lemma check_outputs_ok_inv (input : option value) (outputs : list value) :
  check_outputs input outputs = Ok tt ->
  Forall (fun output => output_ok output = true) outputs.
Proof.
  induction outputs as [ | output outputs IH]; simpl; [constructor | ].
  destruct (output_ok output) eqn:E; simpl; [ | discriminate].
  intros H. constructor; auto.
Qed.

Lemma input_after_loop_last (front : list value) (last : value) :
  input_after_loop (front ++ [last]) = Some last.
Proof. unfold input_after_loop. now rewrite rev_unit. Qed.

(** X1.  The input check stops at the first input that is neither a random
    variable nor a tensor: the usage error names the class of that input,
    whatever comes after it and whatever [forward] is. *)
Theorem call_reports_first_bad_input
        (self_forward : list value -> pydict value -> result value)
        (good rest : list value) (bad : value) (kwargs : pydict value) :
  Forall (fun input => input_ok input = true) good ->
  input_ok bad = false ->
  __call__ self_forward (good ++ bad :: rest) kwargs
  = Raise (input_error (class_name bad)).
Proof.
  intros Hgood Hbad. unfold __call__.
  replace (check_inputs (good ++ bad :: rest))
    with (@Raise unit (input_error (class_name bad))); [reflexivity | ].
  induction Hgood as [ | input good Hok _ IH]; simpl.
  - now rewrite Hbad.
  - now rewrite Hok.
Qed.

Lemma call_reports_first_bad_input_witness :
  __call__ forward [a_variable; a_group; VNone; a_lazy_variable] []
  = Raise (RuntimeError
             "Input must be a RandomVariable or Variable, was a ParameterGroup").
Proof.
  apply (@call_reports_first_bad_input forward [a_variable]
           [VNone; a_lazy_variable] a_group []).
  - repeat constructor.
  - reflexivity.
Defined.

(** X2.  An exception that [forward] raises on inputs that pass the input
    check leaves the call as it is; the [forward] of the base class gives
    [NotImplementedError]. *)
Theorem call_propagates_forward_exception :
  (forall (self_forward : list value -> pydict value -> result value)
          (inputs : list value) (kwargs : pydict value) (e : exn),
      Forall (fun input => input_ok input = true) inputs ->
      self_forward inputs kwargs = Raise e ->
      __call__ self_forward inputs kwargs = Raise e)
  /\ (forall (inputs : list value) (kwargs : pydict value),
         Forall (fun input => input_ok input = true) inputs ->
         __call__ forward inputs kwargs = Raise NotImplementedError).
Proof.
  assert (H : forall self_forward inputs kwargs e,
             Forall (fun input => input_ok input = true) inputs ->
             self_forward inputs kwargs = Raise e ->
             __call__ self_forward inputs kwargs = Raise e).
  { intros f inputs kwargs e Hin Hf. apply check_inputs_ok in Hin.
    rewrite call_after_input_check by assumption. now rewrite Hf. }
  split; [exact H | ].
  intros inputs kwargs Hin. now apply H.
Qed.

Lemma call_propagates_forward_exception_witness :
  __call__ (fun _ _ => Raise KeyError) [a_random_variable] [("jitter", VInt 1)]
  = Raise KeyError
  /\ __call__ forward [a_variable; a_parameter] [] = Raise NotImplementedError.
Proof.
  split.
  - apply (proj1 call_propagates_forward_exception).
    + repeat constructor.
    + reflexivity.
  - apply (proj2 call_propagates_forward_exception). repeat constructor.
Defined.

(** X3.  What a call returns has been checked.  When the call returns [v],
    every input is a random variable or a tensor, and [forward] returned
    either [v] itself, one of the three types, or a collection of values of
    the three types that is [v] itself, or has [v] as its only element. *)
Theorem call_result_is_validated
        (self_forward : list value -> pydict value -> result value)
        (inputs : list value) (kwargs : pydict value) (v : value) :
  __call__ self_forward inputs kwargs = Ok v ->
  Forall (fun input => input_ok input = true) inputs
  /\ exists outputs,
      self_forward inputs kwargs = Ok outputs
      /\ ((one_of_three outputs /\ v = outputs)
          \/ (~ one_of_three outputs
              /\ exists elements,
                  iter outputs = Ok elements
                  /\ Forall one_of_three elements
                  /\ (elements = [v]
                      \/ (List.length elements <> 1 /\ v = outputs)))).
Proof.
  unfold __call__. intros H.
  destruct (check_inputs inputs) as [[] | e] eqn:Hin; [ | discriminate].
  split; [now apply check_inputs_ok | ]. simpl in H.
  destruct (self_forward inputs kwargs) as [outputs | e]; [ | discriminate].
  exists outputs. split; [reflexivity | ]. simpl in H.
  unfold check_outputs_and_unwrap in H. rewrite output_ok_line_22 in H.
  destruct (output_ok outputs) eqn:Hout.
  - left. injection H as <-. split; [ | reflexivity].
    now apply one_of_three_output_ok.
  - right. split.
    { rewrite one_of_three_output_ok. congruence. }
    destruct (iter outputs) as [elements | e] eqn:Hiter; [ | discriminate].
    simpl in H.
    destruct (check_outputs (input_after_loop inputs) elements) as [[] | e] eqn:Hc;
      [ | discriminate].
    apply check_outputs_ok_inv in Hc. simpl in H.
    rewrite (len_iter _ Hiter) in H. simpl in H.
    exists elements. split; [reflexivity | ]. split.
    { eapply Forall_impl; [ | exact Hc]. intros o. apply one_of_three_output_ok. }
    destruct (Nat.eqb (List.length elements) 1) eqn:Hlen.
    + left. apply Nat.eqb_eq in Hlen.
      destruct elements as [ | x [ | y elements]]; try discriminate.
      rewrite (getitem0_iter _ Hiter) in H; [congruence | now inversion Hc].
    + right. apply Nat.eqb_neq in Hlen. split; [assumption | congruence].
Qed.

Lemma call_result_is_validated_witness :
  Forall (fun input => input_ok input = true) [a_variable]
  /\ exists outputs,
      Ok (VList [a_lazy_variable]) = Ok outputs
      /\ ((one_of_three outputs /\ a_lazy_variable = outputs)
          \/ (~ one_of_three outputs
              /\ exists elements,
                  iter outputs = Ok elements
                  /\ Forall one_of_three elements
                  /\ (elements = [a_lazy_variable]
                      \/ (List.length elements <> 1 /\ a_lazy_variable = outputs)))).
Proof.
  apply (@call_result_is_validated (fun _ _ => Ok (VList [a_lazy_variable]))
           [a_variable] [] a_lazy_variable).
  reflexivity.
Defined.

(** X4.  The usage error of the output check names the class of the last
    positional input, not that of the value at fault: line 30 reads [input],
    which the loop of line 17 left on the last input. *)
Theorem output_error_names_last_input
        (self_forward : list value -> pydict value -> result value)
        (front : list value) (last : value) (kwargs : pydict value)
        (outputs : value) (elements : list value) :
  Forall (fun input => input_ok input = true) (front ++ [last]) ->
  self_forward (front ++ [last]) kwargs = Ok outputs ->
  ~ one_of_three outputs ->
  iter outputs = Ok elements ->
  ~ Forall one_of_three elements ->
  __call__ self_forward (front ++ [last]) kwargs
  = Raise (output_error (class_name last)).
Proof.
  intros Hin Hfwd Hsingle Hiter Hbad.
  apply check_inputs_ok in Hin.
  rewrite call_after_input_check by assumption. rewrite Hfwd. simpl.
  unfold check_outputs_and_unwrap. rewrite output_ok_line_22.
  rewrite one_of_three_output_ok in Hsingle.
  destruct (output_ok outputs); [now destruct Hsingle | ].
  rewrite Hiter. simpl. rewrite check_outputs_raise.
  - simpl. now rewrite input_after_loop_last.
  - intros Hall. apply Hbad. eapply Forall_impl; [ | exact Hall].
    intros o. apply one_of_three_output_ok.
Qed.

Lemma output_error_names_last_input_witness :
  __call__ (fun _ _ => Ok (VTuple [a_lazy_variable; VInt 3]))
           [a_variable; a_random_variable] []
  = Raise (RuntimeError
             "Output must be a RandomVariable, Variable, or LazyVariable. Was a GaussianRandomVariable").
Proof.
  apply (@output_error_names_last_input
           (fun _ _ => Ok (VTuple [a_lazy_variable; VInt 3]))
           [a_variable] a_random_variable []
           (VTuple [a_lazy_variable; VInt 3]) [a_lazy_variable; VInt 3]).
  - repeat constructor.
  - reflexivity.
  - intros [H | [H | H]]; discriminate.
  - reflexivity.
  - intros Hall. inversion Hall as [ | x1 l1 _ Hrest].
    inversion Hrest as [ | x2 l2 Hint _].
    destruct Hint as [Hbad | [Hbad | Hbad]]; discriminate.
Defined.

(** X5.  A dictionary is no way to return several values: the loop of line
    25 runs over its keys, so a dictionary with an entry is rejected by the
    output check, whatever its values are; only the empty dictionary is
    returned. *)
Theorem call_rejects_dict_result
        (self_forward : list value -> pydict value -> result value)
        (inputs : list value) (kwargs : pydict value) (kvs : pydict value) :
  Forall (fun input => input_ok input = true) inputs ->
  self_forward inputs kwargs = Ok (VDict kvs) ->
  (kvs = [] -> __call__ self_forward inputs kwargs = Ok (VDict []))
  /\ (kvs <> [] ->
      __call__ self_forward inputs kwargs
      = Raise (raise_output_error (input_after_loop inputs))).
Proof.
  intros Hin Hfwd. apply check_inputs_ok in Hin.
  rewrite call_after_input_check by assumption. rewrite Hfwd. simpl.
  split.
  - now intros ->.
  - intros Hne. destruct kvs as [ | [k v] kvs]; [now destruct Hne | ].
    reflexivity.
Qed.

Lemma call_rejects_dict_result_witness :
  __call__ (fun inputs _ => Ok (VDict [("mean", a_variable); ("var", a_variable)]))
           [a_variable] []
  = Raise (output_error "Variable")
  /\ __call__ (fun _ _ => Ok (VDict [])) [a_variable] [] = Ok (VDict []).
Proof.
  split.
  - apply (proj2 (@call_rejects_dict_result
                    (fun inputs _ => Ok (VDict [("mean", a_variable);
                                                ("var", a_variable)]))
                    [a_variable] [] [("mean", a_variable); ("var", a_variable)]
                    ltac:(repeat constructor) eq_refl)).
    discriminate.
  - apply (proj1 (@call_rejects_dict_result (fun _ _ => Ok (VDict []))
                    [a_variable] [] [] ltac:(repeat constructor) eq_refl)).
    reflexivity.
Defined.

(** * Further properties of attribute assignment and lookup *)

Lemma dict_get_app_l {V : Type} (d d' : pydict V) (k : string) (v : V) :
  dict_get d k = Some v -> dict_get (d ++ d') k = Some v.
Proof.
  induction d as [ | [k' v'] d IH]; simpl; [discriminate | ].
  destruct (String.eqb k k'); auto.
Qed.

Lemma dict_set_keys {V : Type} (d : pydict V) (k n : string) (v : V) :
  In n (map fst d) -> In n (map fst (dict_set d k v)).
Proof.
  induction d as [ | [k' v'] d IH]; simpl; [contradiction | ].
  destruct (String.eqb k k'); simpl; intros [H | H]; auto.
Qed.

Lemma dict_set_keys_inv {V : Type} (d : pydict V) (k n : string) (v : V) :
  In n (map fst (dict_set d k v)) -> n = k \/ In n (map fst d).
Proof.
  induction d as [ | [k' v'] d IH]; simpl.
  - intros [H | []]. auto.
  - destruct (String.eqb k k'); simpl; intros [H | H]; auto.
    destruct (IH H); auto.
Qed.

Lemma dict_set_in_inv {V : Type} (d : pydict V) (k : string) (v : V)
      (p : string * V) :
  In p (dict_set d k v) -> p = (k, v) \/ In p d.
Proof.
  induction d as [ | [k' v'] d IH]; simpl.
  - intros [H | []]. auto.
  - destruct (String.eqb k k') eqn:E; simpl; intros [H | H]; auto.
    + apply String.eqb_eq in E. subst. auto.
    + destruct (IH H); auto.
Qed.

Lemma dict_set_nodup {V : Type} (d : pydict V) (k : string) (v : V) :
  NoDup (map fst d) -> NoDup (map fst (dict_set d k v)).
Proof.
  induction d as [ | [k' v'] d IH]; simpl; intros Hd.
  - constructor; [intros [] | constructor].
  - inversion Hd as [ | x l Hnotin Hrest]; subst.
    destruct (String.eqb k k') eqn:E; simpl.
    + constructor; assumption.
    + constructor; [ | auto].
      intros Hin. apply dict_set_keys_inv in Hin. destruct Hin as [-> | Hin].
      * now rewrite String.eqb_refl in E.
      * contradiction.
Qed.

(** The own pairs open the iteration. *)
Lemma own_groups_first (self : module) (kvs : pydict value) :
  isinstance (VModule self) Module_ = true ->
  own_parameter_groups self = Some kvs ->
  yielded (named_parameter_groups self) = kvs ++ yielded (for_children self).
Proof.
  intros Hgp Hown. rewrite named_parameter_groups_eq, Hgp. simpl.
  now rewrite (own_items_eq _ Hown).
Qed.

(** Line 39, for a parameter group. *)
Lemma setattr_records_group (self : module) (kvs : pydict value)
      (name : string) (g : value) :
  name <> "_parameter_groups" ->
  own_parameter_groups self = Some kvs ->
  isinstance g ParameterGroup_ = true ->
  own_parameter_groups (fst (__setattr__ name g self)) = Some (dict_set kvs name g).
Proof.
  intros Hname Hown Hg.
  rewrite setattr_own_parameter_groups with (kvs := kvs) by assumption.
  unfold groups_after. simpl.
  now rewrite (parameter_group_not_parameter _ Hg), Hg.
Qed.

(** X6.  Assignment and lookup agree.  After a parameter group is assigned
    under a name, the first pair the iteration yields under that name holds
    that group, before any group of that name in a child, and [__getattr__]
    returns it. *)
Theorem assigned_group_is_found
        (self : module) (kvs : pydict value) (name : string) (g : value) :
  isinstance (VModule self) Module_ = true ->
  own_parameter_groups self = Some kvs ->
  isinstance g ParameterGroup_ = true ->
  name <> "_parameter_groups" ->
  dict_get (yielded (named_parameter_groups (fst (__setattr__ name g self)))) name
  = Some g
  /\ (name <> "__setstate__" ->
      __getattr__ (fst (__setattr__ name g self)) name = Ok g).
Proof.
  intros Hgp Hown Hg Hname.
  assert (Hown' : own_parameter_groups (fst (__setattr__ name g self))
                  = Some (dict_set kvs name g))
    by now apply setattr_records_group.
  assert (Hgp' : isinstance (VModule (fst (__setattr__ name g self))) Module_ = true).
  { simpl. now rewrite setattr_is_gp. }
  assert (Hget : dict_get (yielded (named_parameter_groups
                                      (fst (__setattr__ name g self)))) name
                 = Some g).
  { rewrite (own_groups_first _ Hgp' Hown').
    apply dict_get_app_l, dict_get_set_same. }
  split; [exact Hget | ].
  intros Hne. unfold __getattr__. apply String.eqb_neq in Hne. rewrite Hne.
  unfold for_return. now rewrite (for_return_first _ _ _ Hget).
Qed.

Lemma assigned_group_is_found_witness :
  dict_get (yielded (named_parameter_groups
                       (fst (__setattr__ "noise" another_group model)))) "noise"
  = Some another_group
  /\ __getattr__ (fst (__setattr__ "noise" another_group model)) "noise"
     = Ok another_group.
Proof.
  destruct (@assigned_group_is_found model _ "noise" another_group
              eq_refl eq_refl eq_refl ltac:(discriminate)) as [Hget Hattr].
  split; [exact Hget | apply Hattr; discriminate].
Defined.

Lemma groups_after_cons (name : string) (v : value)
      (history : list (string * value)) (kvs : pydict value) :
  groups_after ((name, v) :: history) kvs
  = groups_after history
      (if negb (isinstance v nn_Parameter) && isinstance v ParameterGroup_
       then dict_set kvs name v else kvs).
Proof. reflexivity. Qed.

Lemma groups_after_keys (history : list (string * value)) (kvs : pydict value)
      (n : string) :
  In n (map fst kvs) -> In n (map fst (groups_after history kvs)).
Proof.
  revert kvs. induction history as [ | [name v] history IH]; intros kvs Hin.
  - assumption.
  - rewrite groups_after_cons. apply IH.
    destruct (negb (isinstance v nn_Parameter) && isinstance v ParameterGroup_);
      [now apply dict_set_keys | assumption].
Qed.

Lemma groups_after_no_group (history : list (string * value)) (kvs : pydict value) :
  Forall (fun nv => isinstance (snd nv) ParameterGroup_ = false) history ->
  groups_after history kvs = kvs.
Proof.
  induction 1 as [ | [name v] history Hv _ IH]; [reflexivity | ].
  rewrite groups_after_cons. simpl in Hv. rewrite Hv, andb_false_r. exact IH.
Qed.

Lemma groups_after_in_inv (history : list (string * value)) (kvs : pydict value)
      (p : string * value) :
  In p (groups_after history kvs) ->
  In p kvs \/ (In p history /\ isinstance (snd p) ParameterGroup_ = true).
Proof.
  revert kvs. induction history as [ | [name v] history IH]; intros kvs Hin.
  - now left.
  - rewrite groups_after_cons in Hin. apply IH in Hin.
    destruct Hin as [Hin | [Hin Hp]]; [ | right; split; [now right | assumption]].
    destruct (negb (isinstance v nn_Parameter) && isinstance v ParameterGroup_) eqn:E;
      [ | now left].
    apply dict_set_in_inv in Hin. destruct Hin as [-> | Hin]; [ | now left].
    apply andb_true_iff in E. right. split; [now left | apply E].
Qed.

Lemma groups_after_nodup (history : list (string * value)) (kvs : pydict value) :
  NoDup (map fst kvs) -> NoDup (map fst (groups_after history kvs)).
Proof.
  revert kvs. induction history as [ | [name v] history IH]; intros kvs Hkvs.
  - assumption.
  - rewrite groups_after_cons. apply IH.
    destruct (negb (isinstance v nn_Parameter) && isinstance v ParameterGroup_);
      [now apply dict_set_nodup | assumption].
Qed.

(** X7.  A name once in the dictionary of groups stays there: no assignment
    takes it out, and the assignments of values that are no parameter groups
    (a number, a tensor, [None], a module) leave the dictionary as it is, so
    that a group replaced by such a value is still iterated over. *)
Theorem recorded_names_persist
        (self : module) (kvs : pydict value) (history : list (string * value)) :
  own_parameter_groups self = Some kvs ->
  Forall (fun nv => fst nv <> "_parameter_groups") history ->
  (exists kvs',
      own_parameter_groups (assign_all history self) = Some kvs'
      /\ forall n, In n (map fst kvs) -> In n (map fst kvs'))
  /\ (Forall (fun nv => isinstance (snd nv) ParameterGroup_ = false) history ->
      own_parameter_groups (assign_all history self) = Some kvs).
Proof.
  intros Hown Hnames.
  pose proof (assign_all_own_parameter_groups _ Hnames Hown) as Hafter.
  split.
  - exists (groups_after history kvs). split; [assumption | ].
    intros n. apply groups_after_keys.
  - intros Hnone. now rewrite Hafter, groups_after_no_group.
Qed.

Lemma recorded_names_persist_witness :
  own_parameter_groups (assign_all [("noise", VInt 0)] likelihood)
  = Some [("noise", a_group)]
  /\ In ("noise", a_group)
        (yielded (named_parameter_groups (assign_all [("noise", VInt 0)] likelihood))).
Proof.
  split.
  - apply (proj2 (@recorded_names_persist likelihood [("noise", a_group)]
                    [("noise", VInt 0)] eq_refl
                    ltac:(repeat constructor; discriminate))).
    repeat constructor.
  - simpl. left. reflexivity.
Defined.

(** X8.  The dictionary of groups holds nothing but what was assigned: on a
    module made by [__init__] and a run of assignments, every pair of the
    dictionary is one of these assignments, and its value is a parameter
    group. *)
Theorem own_groups_were_assigned
        (i : nat) (history : list (string * value)) (kvs : pydict value)
        (name : string) (g : value) :
  Forall (fun nv => fst nv <> "_parameter_groups") history ->
  own_parameter_groups (assign_all history (new_Module i)) = Some kvs ->
  In (name, g) kvs ->
  In (name, g) history /\ isinstance g ParameterGroup_ = true.
Proof.
  intros Hnames Hown Hin.
  assert (Hnew : own_parameter_groups (new_Module i) = Some []) by reflexivity.
  rewrite (assign_all_own_parameter_groups _ Hnames Hnew) in Hown.
  injection Hown as <-. apply groups_after_in_inv in Hin.
  destruct Hin as [[] | Hin]. exact Hin.
Qed.

Lemma own_groups_were_assigned_witness :
  In ("lengthscale", another_group)
     [("lengthscale", another_group); ("likelihood", VModule likelihood);
      ("alias", VModule likelihood); ("container", VModule plain_container)]
  /\ isinstance another_group ParameterGroup_ = true.
Proof.
  apply (@own_groups_were_assigned 12 _ [("lengthscale", another_group)]
           "lengthscale" another_group).
  - repeat constructor; discriminate.
  - reflexivity.
  - left. reflexivity.
Defined.

(** X9.  The names of a module's own groups are distinct: on a module made
    by [__init__] and a run of assignments, however often a name is assigned
    again, the dictionary of groups holds it once. *)
Theorem own_names_distinct
        (i : nat) (history : list (string * value)) (kvs : pydict value) :
  Forall (fun nv => fst nv <> "_parameter_groups") history ->
  own_parameter_groups (assign_all history (new_Module i)) = Some kvs ->
  NoDup (map fst kvs).
Proof.
  intros Hnames Hown.
  assert (Hnew : own_parameter_groups (new_Module i) = Some []) by reflexivity.
  rewrite (assign_all_own_parameter_groups _ Hnames Hnew) in Hown.
  injection Hown as <-. apply groups_after_nodup. constructor.
Qed.

Lemma own_names_distinct_witness :
  NoDup (map fst [("noise", another_group); ("scale", a_group)]).
Proof.
  apply (@own_names_distinct 30
           [("noise", a_group); ("scale", a_group); ("noise", another_group)]).
  - repeat constructor; discriminate.
  - reflexivity.
Defined.

(** * Further properties of the iteration *)

Lemma gen_for_items_flat_map {A B : Type} (xs : list A) (body : A -> gen B) :
  (forall x, In x xs -> raised (body x) = None) ->
  yielded (gen_for_items xs None body) = flat_map (fun x => yielded (body x)) xs.
Proof.
  induction xs as [ | x xs IH]; simpl; intros Hbody; [reflexivity | ].
  unfold gen_seq. rewrite (Hbody x) by now left. simpl.
  rewrite IH by auto. reflexivity.
Qed.

Lemma flat_map_filter {A B : Type} (keep : A -> bool) (f : A -> list B)
      (xs : list A) :
  flat_map (fun x => if keep x then f x else []) xs = flat_map f (filter keep xs).
Proof.
  induction xs as [ | x xs IH]; simpl; [reflexivity | ].
  destruct (keep x); simpl; now rewrite IH.
Qed.

Lemma own_items_raised_none (self : module) :
  raised (own_items self) = None -> exists kvs, own_parameter_groups self = Some kvs.
Proof.
  unfold own_items, own_parameter_groups, get_parameter_groups.
  destruct (dict_get (__dict__ self) "_parameter_groups")
    as [[ | | | | | | kvs | | ] | ]; simpl; try discriminate.
  eauto.
Qed.

Lemma for_return_not_found (xs : pydict value) (stop : option exn) (name : string) :
  ~ In name (map fst xs) ->
  for_return_items xs stop
    (fun '(param_name, value) =>
       if String.eqb name param_name then Some value else None)
  = match stop with Some e => Raise e | None => Ok None end.
Proof.
  induction xs as [ | [k v] xs IH]; simpl; intros Hnot; [reflexivity | ].
  destruct (String.eqb name k) eqn:E.
  - apply String.eqb_eq in E. subst. destruct Hnot. now left.
  - apply IH. intros H. apply Hnot. now right.
Qed.

(** X10.  What the iteration of an initialised module is, pair by pair: the
    module's own pairs in the order of its dictionary, then for each child
    that is a [Module], in the order of [children()], all that the child's
    iteration yields. *)
Theorem iteration_of_initialised_module (self : module) (kvs : pydict value) :
  initialised self ->
  isinstance (VModule self) Module_ = true ->
  own_parameter_groups self = Some kvs ->
  yielded (named_parameter_groups self)
  = kvs ++ flat_map (fun child => yielded (named_parameter_groups child))
                    (filter (fun child => isinstance (VModule child) Module_)
                            (nn.children self))
  /\ raised (named_parameter_groups self) = None.
Proof.
  intros Hinit Hgp Hown. split; [ | now apply initialised_iteration_completes].
  rewrite (own_groups_first _ Hgp Hown). f_equal.
  unfold for_children. unfold gen_for at 1. cbn [yielded raised].
  assert (Hchildren : forall child,
             In child (nn.children self) ->
             isinstance (VModule child) Module_ = true ->
             raised (named_parameter_groups child) = None).
  { intros child Hin Hc. apply initialised_iteration_completes; [ | assumption].
    destruct Hinit as [self kvs' _ Hsub]. apply Hsub; [ | assumption].
    eapply children_from_in. exact Hin. }
  rewrite gen_for_items_flat_map.
  - rewrite <- flat_map_filter. apply flat_map_ext. intros child.
    destruct (isinstance (VModule child) Module_); [ | reflexivity].
    now rewrite gen_for_yield_pairs.
  - intros child Hin. cbv beta.
    destruct (isinstance (VModule child) Module_) eqn:E; [ | reflexivity].
    rewrite gen_for_yield_pairs. now apply Hchildren.
Qed.

Lemma iteration_of_initialised_module_witness :
  yielded (named_parameter_groups model)
  = [("lengthscale", another_group)]
      ++ flat_map (fun child => yielded (named_parameter_groups child))
                  (filter (fun child => isinstance (VModule child) Module_)
                          (nn.children model))
  /\ raised (named_parameter_groups model) = None.
Proof.
  apply iteration_of_initialised_module; [ | reflexivity | reflexivity].
  apply assign_all_initialised; [ | apply new_Module_initialised].
  repeat constructor; simpl; try discriminate;
    intros m Hm Hgp; injection Hm as <-.
  - apply assign_all_initialised; [ | apply new_Module_initialised].
    repeat constructor; simpl; discriminate.
  - apply assign_all_initialised; [ | apply new_Module_initialised].
    repeat constructor; simpl; discriminate.
Defined.

(** X11.  A name that the iteration does not yield is looked up in the host
    class: [__getattr__] gives what [nn.Module.__getattr__] gives for it (a
    registered parameter or child module, or [AttributeError]), and when the
    iteration ends with an exception it raises that exception. *)
Theorem getattr_falls_back (self : module) (name : string) :
  name <> "__setstate__" ->
  ~ In name (map fst (yielded (named_parameter_groups self))) ->
  __getattr__ self name
  = match raised (named_parameter_groups self) with
    | Some e => Raise e
    | None => nn.__getattr__ self name
    end.
Proof.
  intros Hne Hnot. unfold __getattr__. apply String.eqb_neq in Hne. rewrite Hne.
  unfold for_return. rewrite for_return_not_found by assumption.
  now destruct (raised (named_parameter_groups self)).
Qed.

Lemma getattr_falls_back_witness :
  __getattr__ model "likelihood" = Ok (VModule likelihood)
  /\ __getattr__ model "missing" = Raise AttributeError.
Proof.
  split.
  - rewrite (@getattr_falls_back model "likelihood").
    + reflexivity.
    + discriminate.
    + simpl. intros [H | [H | []]]; discriminate.
  - rewrite (@getattr_falls_back model "missing").
    + reflexivity.
    + discriminate.
    + simpl. intros [H | [H | []]]; discriminate.
Defined.

(** X12.  When the iteration ends without an exception: exactly when the
    module has its dictionary of groups and the iteration of each child that
    is a [Module] ends without one. *)
Theorem iteration_completes_iff (self : module) :
  isinstance (VModule self) Module_ = true ->
  (raised (named_parameter_groups self) = None
   <-> (exists kvs, own_parameter_groups self = Some kvs)
       /\ forall child,
           In child (nn.children self) ->
           isinstance (VModule child) Module_ = true ->
           raised (named_parameter_groups child) = None).
Proof.
  intros Hgp. rewrite (named_parameter_groups_eq self), Hgp. cbn [negb]. split.
  - intros Hnone. apply gen_seq_raised_none in Hnone. destruct Hnone as [Hown Hloop].
    split; [now apply own_items_raised_none | ].
    intros child Hin Hc. unfold for_children in Hloop.
    unfold gen_for at 1 in Hloop. cbn [yielded raised] in Hloop.
    pose proof (gen_for_items_raised_none _ _ Hloop child Hin) as H.
    cbv beta in H. rewrite Hc in H. now rewrite gen_for_yield_pairs in H.
  - intros [[kvs Hown] Hchildren].
    unfold gen_seq. rewrite (own_items_eq _ Hown). simpl.
    unfold for_children. unfold gen_for at 1. cbn [yielded raised].
    apply gen_for_items_completes. intros child Hin. cbv beta.
    destruct (isinstance (VModule child) Module_) eqn:E; [ | reflexivity].
    rewrite gen_for_yield_pairs. now apply Hchildren.
Qed.

Lemma iteration_completes_iff_witness :
  raised (named_parameter_groups
            (assign_all [("broken", VModule (MkModule true 40 [] [] []))]
                        (new_Module 41)))
  <> None.
Proof.
  intros Hnone.
  apply (@iteration_completes_iff
           (assign_all [("broken", VModule (MkModule true 40 [] [] []))]
                       (new_Module 41)) eq_refl) in Hnone.
  destruct Hnone as [_ Hchildren].
  specialize (Hchildren (MkModule true 40 [] [] []) (or_introl eq_refl) eq_refl).
  discriminate.
Defined.

Lemma children_from_dict_set_in (ms : pydict (option module)) (memo : list nat)
      (name : string) (c : module) :
  (forall m, In (Some m) (map snd ms) -> module_id m <> module_id c) ->
  ~ In (module_id c) memo ->
  In c (nn.children_from (dict_set ms name (Some c)) memo).
Proof.
  assert (Hmemo : forall memo, ~ In (module_id c) memo ->
                               existsb (Nat.eqb (module_id c)) memo = false).
  { intros memo' Hnot. destruct (existsb _ memo') eqn:E; [ | reflexivity].
    apply existsb_exists in E. destruct E as (x & Hx & Heq).
    apply Nat.eqb_eq in Heq. subst. contradiction. }
  revert memo. induction ms as [ | [k [m | ]] ms IH]; intros memo Hother Hnot; simpl.
  - rewrite Hmemo by assumption. now left.
  - destruct (String.eqb name k); simpl.
    + rewrite Hmemo by assumption. now left.
    + destruct (existsb (Nat.eqb (module_id m)) memo).
      * apply IH; [ | assumption]. intros m' Hm'. apply Hother. now right.
      * right. apply IH.
        -- intros m' Hm'. apply Hother. now right.
        -- simpl. intros [H | H]; [ | contradiction].
           apply (Hother m); [now left | assumption].
  - destruct (String.eqb name k); simpl.
    + rewrite Hmemo by assumption. now left.
    + apply IH; [ | assumption]. intros m' Hm'. apply Hother. now right.
Qed.

(** X13.  Attaching a child makes its groups part of the iteration.  On an
    initialised module, assigning an initialised [Module] that is not yet
    among the registered modules, under a name the host does not keep for a
    parameter, succeeds; the child is then among [children()], and what its
    iteration yields the parent's iteration yields. *)
Theorem attached_child_is_iterated (self c : module) (name : string) :
  initialised self ->
  isinstance (VModule self) Module_ = true ->
  initialised c ->
  isinstance (VModule c) Module_ = true ->
  name <> "_parameter_groups" ->
  dict_mem (_parameters self) name = false ->
  (forall m, In (Some m) (map snd (_modules self)) -> module_id m <> module_id c) ->
  snd (__setattr__ name (VModule c) self) = Ok tt
  /\ In c (nn.children (fst (__setattr__ name (VModule c) self)))
  /\ incl (yielded (named_parameter_groups c))
          (yielded (named_parameter_groups (fst (__setattr__ name (VModule c) self)))).
Proof.
  intros Hself Hgp Hc Hcgp Hname Hps Hfresh.
  assert (Hinit : initialised (fst (__setattr__ name (VModule c) self))).
  { apply setattr_initialised; [assumption | | assumption].
    intros m [= <-] _. exact Hc. }
  assert (Hgp' : isinstance (VModule (fst (__setattr__ name (VModule c) self)))
                            Module_ = true).
  { simpl. now rewrite setattr_is_gp. }
  assert (Hstep : __setattr__ name (VModule c) self
                  = (set_modules self (dict_set (_modules self) name (Some c)),
                     Ok tt)).
  { unfold __setattr__, nn.__setattr__. simpl. now rewrite Hps. }
  assert (Hin : In c (nn.children (fst (__setattr__ name (VModule c) self)))).
  { rewrite Hstep. destruct self as [gp i d ps ms]. unfold nn.children. simpl.
    apply children_from_dict_set_in; [exact Hfresh | intros []]. }
  split; [now rewrite Hstep | ]. split; [exact Hin | ].
  apply (child_groups_yielded _ c Hgp'); try assumption.
  now apply initialised_iteration_completes.
Qed.

Lemma attached_child_is_iterated_witness :
  snd (__setattr__ "likelihood" (VModule likelihood) (new_Module 12)) = Ok tt
  /\ In likelihood
        (nn.children (fst (__setattr__ "likelihood" (VModule likelihood)
                                       (new_Module 12))))
  /\ incl (yielded (named_parameter_groups likelihood))
          (yielded (named_parameter_groups
                      (fst (__setattr__ "likelihood" (VModule likelihood)
                                        (new_Module 12))))).
Proof.
  apply attached_child_is_iterated.
  - apply new_Module_initialised.
  - reflexivity.
  - apply assign_all_initialised; [ | apply new_Module_initialised].
    repeat constructor; simpl; discriminate.
  - reflexivity.
  - discriminate.
  - reflexivity.
  - intros m [].
Defined.

